(** * sensapex.py: the uMp session wrapper, its motion planner and its poller

    A shallow embedding of [src/sensapex.py].  The foreign library [libump]
    (reached through ctypes) is not part of the repository: it appears here as
    an interface, [Lib], over an arbitrary library state.  Every method of the
    Python classes [UMP], [SensapexDevice] and [PollThread] that the
    properties below talk about is a function of the same name over an
    explicit session state, in a small state-and-exception monad that follows
    Python's rule that the effects made before a [raise] stay. *)

From Stdlib Require Import PrimFloat FloatOps SpecFloat FloatAxioms.
From Stdlib Require Import ZArith List String Bool Lia Reals Lra Sorted.
From stdpp Require Import gmap.
Import ListNotations.

Local Open Scope string_scope.
Local Open Scope list_scope.
Local Open Scope Z_scope.

(** ** Python numbers as used by [goto_pos]

    The planner of [goto_pos] mixes integers and floats.  A Python float is
    a binary64: [float] below, with the operations of [PrimFloat], bit for
    bit what CPython computes, and executable.  The integer literals [0],
    [1] and [32] that the planner mixes with floats are exact in binary64
    and appear as the floats of the same value. *)

(** [float(n)] on an integer: the integer rounded to the nearest binary64,
    ties to even; [None] stands for the [OverflowError] Python raises when
    the integer is too large for a finite float. *)
Definition float_of_Z (z : Z) : option float :=
  let x := SF2Prim (binary_normalize prec emax z 0 false) in
  if is_infinity x then None else Some x.

(** [[float(x) for x in xs]]: [None] when a conversion raises. *)
Fixpoint float_all (xs : list Z) : option (list float) :=
  match xs with
  | [] => Some []
  | x :: xs =>
      match float_of_Z x, float_all xs with
      | Some d, Some ds => Some (d :: ds)
      | _, _ => None
      end
  end.

(** [int(x)] on a float: truncation toward zero; [None] stands for the
    [ValueError]/[OverflowError] Python raises on nan and the infinities. *)
Definition py_int (x : float) : option Z :=
  match Prim2SF x with
  | S754_zero _ => Some 0
  | S754_finite s m e =>
      let v := if 0 <=? e then Z.pos m * 2 ^ e else Z.pos m / 2 ^ (- e) in
      Some (if s then - v else v)
  | S754_infinity _ | S754_nan => None
  end.

(** [max(a, b)] of two numbers: Python keeps the first argument unless the
    second is strictly greater. *)
Definition py_max (a b : float) : float := if (a <? b)%float then b else a.

(** [np.linalg.norm(v)] of a one-dimensional vector: the square root of the
    sum of the squares. *)
Definition norm (v : list float) : float :=
  PrimFloat.sqrt (fold_left (fun acc d => acc + d * d)%float v 0%float).

(** [l + [0] * (4 - len(l))]: a non-positive repeat count gives [[]]. *)
Definition pad4 {A : Type} (zero : A) (l : list A) : list A :=
  l ++ repeat zero (4 - length l)%nat.

(** Line 300: [diff = [float(p-c) for p,c in zip(pos, current_pos)]]. *)
Definition planner_diff (pos current_pos : list Z) : option (list float) :=
  float_all (map (fun pc => fst pc - snd pc) (combine pos current_pos)).

(** Line 301: [dist = max(1, np.linalg.norm(diff))]. *)
Definition planner_dist (diff : list float) : float :=
  py_max 1%float (norm diff).

(** Lines 302-303:
    [speed = [max(32, speed * abs(d / dist)) for d in diff]] and
    [speed = speed + [0] * (4-len(speed))]. *)
Definition planner_speed (speed : float) (diff : list float) (dist : float) : list float :=
  pad4 0%float
    (map (fun d => py_max 32%float (speed * PrimFloat.abs (d / dist))%float) diff).

(** Lines 300-303 together: the value of [speed] after these lines, from
    the padded target, the floored nominal speed and the current position;
    [None] when a [float(p-c)] raises. *)
Definition planner (pos : list Z) (speed : float) (current_pos : list Z)
    : option (list float) :=
  match planner_diff pos current_pos with
  | Some diff => Some (planner_speed speed diff (planner_dist diff))
  | None => None
  end.

(** The speed vector of [goto_pos] as a function of its arguments [pos] and
    [speed] and of the position [current_pos] that [get_pos(dev)] returned:
    line 290 pads the target, line 293 floors the nominal speed at 1, and the
    planner does the rest. *)
Definition goto_speeds (pos : list Z) (speed : float) (current_pos : list Z)
    : option (list float) :=
  planner (pad4 0 pos) (py_max 1%float speed) current_pos.

(** ** Exceptions and outcomes *)

(** The text of a [UMPError], kept as the values the format string is filled
    with: ["UMP OS Error %d: %s" % (oserr, os.strerror(oserr))],
    ["UMP Error %d: %s  From %s%r" % (err, errstr, fn, args)], or the plain
    error string [recv] passes. *)
Inductive message :=
| OsErrorText (oserr : Z) (strerr : string)
| DeviceErrorText (err : Z) (errstr : string) (fn : string) (args : list Z)
| PlainText (errstr : string).

(** [UMPError(msg, errno, oserrno)] and the built-in exceptions the wrapper
    raises; Python's [None] is [None]. *)
Inductive exn :=
| UMPError (msg : message) (errno : option Z) (oserrno : option Z)
| TypeError (msg : string)
| RuntimeError (msg : string) (detail : string)
| ValueError (msg : string)
| UnboundLocalError (name : string).

Definition not_open : exn := TypeError "UMP is not open.".

Inductive outcome (A : Type) :=
| Return (a : A)
| Raise (e : exn).
Arguments Return {A} a.
Arguments Raise {A} e.

(** ** Constants of the module *)

Definition LIBUMP_MAX_MANIPULATORS : Z := 254.
Definition LIBUMP_DEF_BCAST_ADDRESS : string := "169.254.255.255".
Definition LIBUMP_DEF_GROUP : Z := 0.
Definition LIBUMP_TIMEOUT : Z := -3.

(** [c_int(n).value]: ctypes does no overflow checking, the value wraps to a
    signed 32-bit integer. *)
Definition c_int (n : Z) : Z := (n + 2 ^ 31) mod 2 ^ 32 - 2 ^ 31.

(** [t[:n]] on a list, with Python's reading of a negative bound. *)
Definition py_slice_to {A : Type} (n : Z) (t : list A) : list A :=
  if 0 <=? n then firstn (Z.to_nat n) t
  else firstn (Z.to_nat (Z.of_nat (length t) + n)) t.

(** The five [c_int()] cells [xyzwe] after the library has written [outs]
    through the [byref] pointers: a fresh cell holds 0. *)
Definition cells (outs : list Z) : list Z :=
  firstn 5 (outs ++ repeat 0 5).

(** ** The foreign library

    [lib_fn fn h args] is [getattr(self.lib, fn)(self.h, *args)]: it returns
    the C function's [int] result, the values it wrote through the
    by-reference arguments, and the library's new state.  The other fields
    are the functions the wrapper calls outside [UMP.call], the one field of
    the [ump_state] structure it reads, whether the library exports
    [ump_get_axis_count_ext], and [os.strerror]. *)
Record Lib (St : Type) := {
  ump_open : string -> Z -> Z -> St -> Z * St;
  ump_close : option Z -> St -> St;
  lib_fn : string -> Z -> list Z -> St -> Z * list Z * St;
  ump_last_error : St -> Z;
  ump_last_os_errno : St -> Z;
  ump_errorstr : Z -> string;
  ump_is_busy_status : Z -> Z;
  last_device_received : St -> Z;
  has_ump_get_axis_count_ext : bool;
  strerror : Z -> string
}.
Arguments ump_open {St} _.
Arguments ump_close {St} _.
Arguments lib_fn {St} _.
Arguments ump_last_error {St} _.
Arguments ump_last_os_errno {St} _.
Arguments ump_errorstr {St} _.
Arguments ump_is_busy_status {St} _.
Arguments last_device_received {St} _.
Arguments has_ump_get_axis_count_ext {St} _.
Arguments strerror {St} _.

(** ** The poller thread object and the session object *)

(** An observer is a Python callable; only its identity matters here.  The
    bound method [SensapexDevice._change_callback] of a device handle is
    identified by the handle's fields. *)
Inductive callback :=
| Callable (id : nat)
| change_callback (devid : Z) (user : option nat).

(** One call [cb(dev_id, new_pos, old_pos)] made by the poller. *)
Record notification := {
  n_cb : callback;
  n_dev : Z;
  n_new : list Z;
  n_old : option (list Z)
}.

(** [PollThread]: the [callbacks] dictionary (device id to list of
    observers), the polling [interval] in seconds, the [_stop] flag, and
    [alive], what [Thread.is_alive()] answers.  The dictionary is kept as an
    association list with one entry per key, in insertion order; the order
    in which Python iterates over it is the order of the notifications of
    different devices within one trip of the loop, nothing else. *)
Record PollThread := {
  callbacks : list (Z * list callback);
  interval : float;
  _stop : bool;
  alive : bool
}.

(** [UMP]: the fields of the session object, the state of the library behind
    the handle, and two records kept for the statements only:
    [transport_calls], every [fn] and [args] that [call] handed to the
    library, and [notified], every observer call the poller made. *)
Record UMP (St : Type) := {
  h : option Z;
  _timeout : Z;
  _ump_has_axis_count : bool;
  _axis_counts : gmap Z Z;
  poller : PollThread;
  lib_st : St;
  transport_calls : list (string * list Z);
  notified : list notification
}.
Arguments h {St} _.
Arguments _timeout {St} _.
Arguments _ump_has_axis_count {St} _.
Arguments _axis_counts {St} _.
Arguments poller {St} _.
Arguments lib_st {St} _.
Arguments transport_calls {St} _.
Arguments notified {St} _.

Section Session.
Context {St : Type} (L : Lib St).

Definition set_h (v : option Z) (u : UMP St) : UMP St :=
  {| h := v; _timeout := _timeout u; _ump_has_axis_count := _ump_has_axis_count u;
     _axis_counts := _axis_counts u; poller := poller u; lib_st := lib_st u;
     transport_calls := transport_calls u; notified := notified u |}.

Definition set__timeout (v : Z) (u : UMP St) : UMP St :=
  {| h := h u; _timeout := v; _ump_has_axis_count := _ump_has_axis_count u;
     _axis_counts := _axis_counts u; poller := poller u; lib_st := lib_st u;
     transport_calls := transport_calls u; notified := notified u |}.

Definition set__axis_counts (v : gmap Z Z) (u : UMP St) : UMP St :=
  {| h := h u; _timeout := _timeout u; _ump_has_axis_count := _ump_has_axis_count u;
     _axis_counts := v; poller := poller u; lib_st := lib_st u;
     transport_calls := transport_calls u; notified := notified u |}.

Definition set_poller (v : PollThread) (u : UMP St) : UMP St :=
  {| h := h u; _timeout := _timeout u; _ump_has_axis_count := _ump_has_axis_count u;
     _axis_counts := _axis_counts u; poller := v; lib_st := lib_st u;
     transport_calls := transport_calls u; notified := notified u |}.

Definition set_lib_st (v : St) (u : UMP St) : UMP St :=
  {| h := h u; _timeout := _timeout u; _ump_has_axis_count := _ump_has_axis_count u;
     _axis_counts := _axis_counts u; poller := poller u; lib_st := v;
     transport_calls := transport_calls u; notified := notified u |}.

Definition log_call (fn : string) (args : list Z) (u : UMP St) : UMP St :=
  {| h := h u; _timeout := _timeout u; _ump_has_axis_count := _ump_has_axis_count u;
     _axis_counts := _axis_counts u; poller := poller u; lib_st := lib_st u;
     transport_calls := transport_calls u ++ [(fn, args)]; notified := notified u |}.

Definition log_notification (n : notification) (u : UMP St) : UMP St :=
  {| h := h u; _timeout := _timeout u; _ump_has_axis_count := _ump_has_axis_count u;
     _axis_counts := _axis_counts u; poller := poller u; lib_st := lib_st u;
     transport_calls := transport_calls u; notified := notified u ++ [n] |}.

(** *** The monad of a method body *)

Definition py (A : Type) : Type := UMP St -> outcome A * UMP St.

Definition ret {A : Type} (a : A) : py A := fun u => (Return a, u).

Definition raise {A : Type} (e : exn) : py A := fun u => (Raise e, u).

Definition bind {A B : Type} (m : py A) (k : A -> py B) : py B :=
  fun u =>
    match m u with
    | (Return a, u1) => k a u1
    | (Raise e, u1) => (Raise e, u1)
    end.

Notation "x <- m ;; k" := (bind m (fun x => k))
  (at level 100, m at next level, right associativity).

(** [try: body finally: fin]: [fin] runs on both exits; an exception of
    [fin] replaces the outcome of [body]. *)
Definition try_finally {A : Type} (body : py A) (fin : py unit) : py A :=
  fun u =>
    let '(r, u1) := body u in
    match fin u1 with
    | (Return _, u2) => (r, u2)
    | (Raise e, u2) => (Raise e, u2)
    end.

(** *** [UMP.call] *)

Definition call (fn : string) (args : list Z) : py (Z * list Z) :=
  fun u =>
    match h u with
    | None => (Raise (TypeError "UMP is not open."), u)
    | Some hd =>
        let '(rval, outs, st) := lib_fn L fn hd args (lib_st u) in
        let u1 := log_call fn args (set_lib_st st u) in
        if rval <? 0 then
          let err := ump_last_error L st in
          let errstr := ump_errorstr L err in
          if err =? -1 then
            let oserr := ump_last_os_errno L st in
            (Raise (UMPError (OsErrorText oserr (strerror L oserr)) None (Some oserr)), u1)
          else
            (Raise (UMPError (DeviceErrorText err errstr fn args) (Some err) None), u1)
        else (Return (rval, outs), u1)
    end.

(** *** [UMP.set_timeout] *)

Definition set_timeout (timeout : Z) : py unit :=
  fun u =>
    (_ <- call "ump_set_timeout" [timeout] ;; ret tt) (set__timeout timeout u).

(** *** [UMP.open] and [UMP.__init__] *)

Definition open (address : option string) (group : option Z) : py unit :=
  fun u =>
    let address := match address with Some a => a | None => LIBUMP_DEF_BCAST_ADDRESS end in
    let group := match group with Some g => g | None => LIBUMP_DEF_GROUP end in
    match h u with
    | Some _ => (Raise (TypeError "UMP is already open."), u)
    | None =>
        let '(ptr, st) := ump_open L address (_timeout u) (c_int group) (lib_st u) in
        let u1 := set_lib_st st u in
        if ptr <=? 0 then
          (Raise (RuntimeError "Error connecting to UMP:" (ump_errorstr L ptr)), u1)
        else (Return tt, set_h (Some ptr) u1)
    end.

(** The default [interval=0.03] of [PollThread.__init__]: the binary64
    nearest to 0.03, as Python reads the literal. *)
Definition default_interval : float := 0x1.eb851eb851eb8p-6%float.

Definition PollThread_init (interval : float) : PollThread :=
  {| callbacks := []; interval := interval; _stop := false; alive := false |}.

(** [PollThread.start]: clears the flag and starts the thread. *)
Definition PollThread_start (p : PollThread) : PollThread :=
  {| callbacks := callbacks p; interval := interval p; _stop := false; alive := true |}.

(** [PollThread.stop]. *)
Definition PollThread_stop (p : PollThread) : PollThread :=
  {| callbacks := callbacks p; interval := interval p; _stop := true; alive := alive p |}.

(** [Thread.join]: returns once [run] has left its loop, which [run] does at
    its next test of [_stop]; [close], the only caller, sets the flag first. *)
Definition PollThread_join (p : PollThread) : PollThread :=
  {| callbacks := callbacks p; interval := interval p; _stop := _stop p; alive := false |}.

(** [UMP.__init__] over a library in state [st]. *)
Definition UMP_init (address : option string) (group : option Z) (start_poller : bool)
    (st : St) : outcome unit * UMP St :=
  let u0 := {| h := None; _timeout := 200;
               _ump_has_axis_count := has_ump_get_axis_count_ext L;
               _axis_counts := ∅;
               poller := PollThread_init default_interval;
               lib_st := st; transport_calls := []; notified := [] |} in
  match open address group u0 with
  | (Return _, u1) =>
      (Return tt, if start_poller then set_poller (PollThread_start (poller u1)) u1 else u1)
  | (Raise e, u1) => (Raise e, u1)
  end.

(** *** [UMP.axis_count] *)

Definition axis_count (dev : Z) : py Z :=
  fun u =>
    if negb (_ump_has_axis_count u) then (Return 4, u)
    else
      match _axis_counts u !! dev with
      | Some c => (Return c, u)
      | None =>
          (rc <- call "ump_get_axis_count_ext" [dev] ;;
           fun u1 => (Return (fst rc), set__axis_counts (<[dev := fst rc]> (_axis_counts u1)) u1)) u
      end.

(** *** [UMP.get_pos]

    [timeout] is [None] for Python's [None], which selects the session's
    stored timeout; the default of the method is [Some 0]. *)
Definition get_pos (dev : Z) (timeout : option Z) : py (list Z) :=
  fun u =>
    let timeout := match timeout with Some t => t | None => _timeout u end in
    (r <- call "ump_get_positions_ext" [c_int dev; c_int timeout] ;;
     n_axes <- axis_count dev ;;
     ret (py_slice_to n_axes (cells (snd r)))) u.

(** *** [UMP.is_busy], [UMP.stop_all], [UMP.stop] *)

Definition is_busy (dev : Z) : py bool :=
  _ <- call "ump_receive" [10] ;;
  status <- call "ump_get_status_ext" [c_int dev] ;;
  ret (negb (ump_is_busy_status L (c_int (fst status)) =? 0)).

Definition stop_all : py unit :=
  _ <- call "ump_stop_all" [] ;; ret tt.

Definition stop (dev : Z) : py unit :=
  _ <- call "ump_stop_ext" [c_int dev] ;; ret tt.

(** *** [UMP.goto_pos]

    [pos] holds integers (nanometres) and [speed] is a float.  [args] is the
    local variable of that name: [None] while it is unbound, which is how
    the first [try] block leaves it when [int(speed)] raises.  Whatever the
    second [try] block raises is swallowed and [args] keeps its value: the
    failed read of the position, a [float(p-c)] that overflows, an [int] of
    a speed that is nan or infinite.  With
    [block] the method then waits, [fuel] polls at most ([None]: still
    waiting), and reads the position once more; the subtraction of
    [pos[:3]] from it raises when numpy cannot broadcast the two shapes. *)

(** [[int(x) for x in xs]]: [None] when a conversion raises. *)
Fixpoint int_all (xs : list float) : option (list Z) :=
  match xs with
  | [] => Some []
  | x :: xs =>
      match py_int x, int_all xs with
      | Some z, Some zs => Some (z :: zs)
      | _, _ => None
      end
  end.

(** [while True: if not self.is_busy(dev): break; time.sleep(0.005)]. *)
Fixpoint wait_idle (fuel : nat) (dev : Z) (u : UMP St) : option (outcome unit * UMP St) :=
  match fuel with
  | O => None
  | S fuel =>
      match is_busy dev u with
      | (Return false, u1) => Some (Return tt, u1)
      | (Return true, u1) => wait_idle fuel dev u1
      | (Raise e, u1) => Some (Raise e, u1)
      end
  end.

(** Two one-dimensional arrays of these lengths can be subtracted. *)
Definition broadcastable (n m : nat) : bool :=
  (n =? m)%nat || (n =? 1)%nat || (m =? 1)%nat.

Definition goto_pos (fuel : nat) (dev : Z) (pos : list Z) (speed : float)
    (block simultaneous : bool) (u : UMP St) : option (outcome unit * UMP St) :=
  let pos := pad4 0 pos in
  let mode := if simultaneous then 1 else 0 in
  let speed := py_max 1%float speed in
  let args :=
    match py_int speed with
    | Some s => Some (map c_int ([dev] ++ pos ++ [s; s; s; s; mode]))
    | None => None
    end in
  let '(current_pos, u1) := get_pos dev (Some 0) u in
  let args :=
    match current_pos with
    | Return current_pos =>
        match planner pos speed current_pos with
        | Some speeds =>
            match int_all speeds with
            | Some speeds => Some (map c_int ([dev] ++ pos ++ speeds ++ [mode]))
            | None => args
            end
        | None => args
        end
    | Raise _ => args
    end in
  match args with
  | None => Some (Raise (UnboundLocalError "args"), u1)
  | Some args =>
      match (_ <- call "ump_goto_position_ext2" args ;; call "ump_receive" [1]) u1 with
      | (Raise e, u2) => Some (Raise e, u2)
      | (Return _, u2) =>
          if block then
            match wait_idle fuel dev u2 with
            | None => None
            | Some (Raise e, u3) => Some (Raise e, u3)
            | Some (Return _, u3) =>
                match get_pos dev (Some 0) u3 with
                | (Raise e, u4) => Some (Raise e, u4)
                | (Return pos2, u4) =>
                    if broadcastable (length pos2) (length (firstn 3 pos))
                    then Some (Return tt, u4)
                    else Some (Raise (ValueError "operands could not be broadcast together"), u4)
                end
            end
          else Some (Return tt, u2)
      end
  end.

(** *** [UMP.recv] *)

Definition recv : py Z :=
  count <- call "ump_receive" [0] ;;
  if fst count =? 0 then
    raise (UMPError (PlainText (ump_errorstr L LIBUMP_TIMEOUT)) (Some LIBUMP_TIMEOUT) None)
  else fun u => (Return (last_device_received L (lib_st u)), u).

(** *** [UMP.recv_all]

    The [while True] loop, [fuel] trips at most ([None]: still looping).  [d]
    is the local variable of that name, [None] while it is unbound; [devs] is
    the set.  A [UMPError] whose [errno] is not -3 leaves the [except] clause
    without a [raise], so control reaches the test of [d] with the value of
    the previous trip.  The field [last_device_received] is a C [int], so
    [d is None] never holds. *)
Fixpoint recv_all_loop (fuel : nat) (d : option Z) (devs : gset Z)
    (u : UMP St) : option (outcome (gset Z) * UMP St) :=
  match fuel with
  | O => None
  | S fuel =>
      match recv u with
      | (Return d1, u1) =>
          recv_all_loop fuel (Some d1) (if 0 <? d1 then {[ d1 ]} ∪ devs else devs) u1
      | (Raise (UMPError msg errno oserrno), u1) =>
          if bool_decide (errno = Some (-3)) then Some (Return devs, u1)
          else
            match d with
            | None => Some (Raise (UnboundLocalError "d"), u1)
            | Some d0 =>
                recv_all_loop fuel d (if 0 <? d0 then {[ d0 ]} ∪ devs else devs) u1
            end
      | (Raise e, u1) => Some (Raise e, u1)
      end
  end.

Definition recv_all (fuel : nat) (u : UMP St) : option (outcome (list Z) * UMP St) :=
  let old_timeout := _timeout u in
  match set_timeout 0 u with
  | (Raise e, u1) => Some (Raise e, u1)
  | (Return _, u1) =>
      match recv_all_loop fuel None ∅ u1 with
      | None => None
      | Some (r, u2) =>
          match set_timeout old_timeout u2 with
          | (Raise e, u3) => Some (Raise e, u3)
          | (Return _, u3) =>
              Some (match r with
                    | Return devs => Return (elements devs)
                    | Raise e => Raise e
                    end, u3)
          end
      end
  end.

(** *** [UMP.list_devices] *)

(** The body of the [for] loop over the ids still to probe. *)
Fixpoint list_devices_loop (ids : list Z) (devs : list Z) : py (list Z) :=
  match ids with
  | [] => ret devs
  | i :: ids =>
      fun u =>
        match get_pos i (Some 0) u with
        | (Return p, u1) => list_devices_loop ids (devs ++ [i]) u1
        | (Raise (UMPError msg errno oserrno), u1) =>
            if bool_decide (errno = Some (-5)) || bool_decide (errno = Some (-6))
            then list_devices_loop ids devs u1
            else (Raise (UMPError msg errno oserrno), u1)
        | (Raise e, u1) => (Raise e, u1)
        end
  end.

(** [range(n)]. *)
Definition py_range (n : Z) : list Z :=
  map Z.of_nat (seq 0 (Z.to_nat n)).

Definition list_devices (max_id : Z) : py (list Z) :=
  fun u =>
    let old_timeout := _timeout u in
    (_ <- set_timeout 20 ;;
     try_finally
       (list_devices_loop (py_range (Z.min max_id LIBUMP_MAX_MANIPULATORS)) [])
       (set_timeout old_timeout)) u.

(** *** [UMP.close] *)

Definition close : py unit :=
  fun u =>
    let u1 := if alive (poller u)
              then set_poller (PollThread_join (PollThread_stop (poller u))) u
              else u in
    (Return tt, set_h None (set_lib_st (ump_close L (h u1) (lib_st u1)) u1)).

(** *** [PollThread.add_callback] and [PollThread.run] *)

(** [callbacks.setdefault(dev_id, []).append(callback)]. *)
Fixpoint setdefault_append (dev_id : Z) (cb : callback)
    (d : list (Z * list callback)) : list (Z * list callback) :=
  match d with
  | [] => [(dev_id, [cb])]
  | (k, l) :: d =>
      if k =? dev_id then (k, l ++ [cb]) :: d
      else (k, l) :: setdefault_append dev_id cb d
  end.

Definition add_callback (dev_id : Z) (cb : callback) (p : PollThread) : PollThread :=
  {| callbacks := setdefault_append dev_id cb (callbacks p);
     interval := interval p; _stop := _stop p; alive := alive p |}.

(** [for cb in dev_callbacks: cb(dev_id, new_pos, old_pos)]. *)
Definition notify_all (dev_callbacks : list callback) (dev_id : Z)
    (new_pos : list Z) (old_pos : option (list Z)) : py unit :=
  fun u =>
    (Return tt,
     fold_left
       (fun u cb =>
          log_notification
            {| n_cb := cb; n_dev := dev_id; n_new := new_pos; n_old := old_pos |} u)
       dev_callbacks u).

(** The body of [for dev_id, dev_callbacks in callbacks.items()], lines
    572-578; [n] is [len(callbacks)] and [last_pos] the dictionary of that
    name, which [run] creates empty and only ever reads. *)
Definition poll_device (n : nat) (last_pos : gmap Z (list Z))
    (dev_id : Z) (dev_callbacks : list callback) : py unit :=
  if (n =? 0)%nat then ret tt
  else
    new_pos <- get_pos dev_id (Some 20) ;;
    let old_pos := last_pos !! dev_id in
    if bool_decide (Some new_pos ≠ old_pos)
    then notify_all dev_callbacks dev_id new_pos old_pos
    else ret tt.

Fixpoint poll_devices (n : nat) (last_pos : gmap Z (list Z))
    (items : list (Z * list callback)) : py unit :=
  match items with
  | [] => ret tt
  | (dev_id, dev_callbacks) :: items =>
      _ <- poll_device n last_pos dev_id dev_callbacks ;;
      poll_devices n last_pos items
  end.

(** Lines 563-578, what the [try] of one trip guards after the test of
    [_stop]. *)
Definition run_body (last_pos : gmap Z (list Z)) : py unit :=
  fun u =>
    match py_int (interval (poller u) * 1000)%float with
    | None => (Raise (ValueError "cannot convert float to integer"), u)
    | Some ms =>
        (_ <- call "ump_receive" [c_int ms] ;;
         fun u1 =>
           let callbacks := callbacks (poller u1) in
           poll_devices (length callbacks) last_pos callbacks u1) u
    end.

(** One trip round [while True]: [false] when the loop breaks.  The bare
    [except:] swallows whatever the body raised. *)
Definition run_iteration (last_pos : gmap Z (list Z)) (u : UMP St) : bool * UMP St :=
  if _stop (poller u) then (false, u)
  else (true, snd (run_body last_pos u)).

(** [PollThread.run] on its own, [fuel] trips at most; [last_pos = {}] is
    created before the loop and no trip assigns to it. *)
Fixpoint run_loop (fuel : nat) (last_pos : gmap Z (list Z)) (u : UMP St) : option (UMP St) :=
  match fuel with
  | O => None
  | S fuel =>
      match run_iteration last_pos u with
      | (false, u1) => Some u1
      | (true, u1) => run_loop fuel last_pos u1
      end
  end.

Definition run (fuel : nat) (u : UMP St) : option (UMP St) :=
  run_loop fuel ∅ u.

(** *** [SensapexDevice.__init__] *)

Record SensapexDevice := {
  devid : Z;
  sd_callback : option nat
}.

(** [SensapexDevice(devid, callback, n_axes)] on the session [u], which is
    what [UMP.get_ump()] returns once the session exists. *)
Definition SensapexDevice_init (devid : Z) (callback : option nat) (n_axes : option Z)
    : py SensapexDevice :=
  fun u =>
    let u1 := match n_axes with
              | Some n => set__axis_counts (<[devid := n]> (_axis_counts u)) u
              | None => u
              end in
    let u2 := set_poller (add_callback devid (change_callback devid callback) (poller u1)) u1 in
    (Return {| devid := devid; sd_callback := callback |}, u2).

(** [SensapexDevice.get_pos(timeout=None)]. *)
Definition SensapexDevice_get_pos (d : SensapexDevice) (timeout : option Z) : py (list Z) :=
  get_pos (devid d) timeout.

End Session.

(** ** Programs over a session

    A caller's program is a sequence of calls to the public methods, on the
    session or through a device handle, with trips of the poller's loop in
    between.  [invoke] gives the state a method leaves, whether it returned
    or raised ([None]: it is still looping). *)
Inductive method :=
| m_set_timeout (timeout : Z)
| m_axis_count (dev : Z)
| m_get_pos (dev : Z) (timeout : option Z)
| m_goto_pos (fuel : nat) (dev : Z) (pos : list Z) (speed : float) (block simultaneous : bool)
| m_is_busy (dev : Z)
| m_stop (dev : Z)
| m_stop_all
| m_recv
| m_recv_all (fuel : nat)
| m_list_devices (max_id : Z)
| m_close
| m_SensapexDevice (devid : Z) (callback : option nat) (n_axes : option Z)
| m_poller_trip (last_pos : gmap Z (list Z)).

Section Client.
Context {St : Type} (L : Lib St).

Definition invoke (m : method) (u : UMP St) : option (UMP St) :=
  match m with
  | m_set_timeout t => Some (snd (set_timeout L t u))
  | m_axis_count dev => Some (snd (axis_count L dev u))
  | m_get_pos dev t => Some (snd (get_pos L dev t u))
  | m_goto_pos fuel dev pos speed block simultaneous =>
      option_map snd (goto_pos L fuel dev pos speed block simultaneous u)
  | m_is_busy dev => Some (snd (is_busy L dev u))
  | m_stop dev => Some (snd (stop L dev u))
  | m_stop_all => Some (snd (stop_all L u))
  | m_recv => Some (snd (recv L u))
  | m_recv_all fuel => option_map snd (recv_all L fuel u)
  | m_list_devices max_id => Some (snd (list_devices L max_id u))
  | m_close => Some (snd (close L u))
  | m_SensapexDevice devid cb n_axes => Some (snd (SensapexDevice_init devid cb n_axes u))
  | m_poller_trip last_pos => Some (snd (run_iteration L last_pos u))
  end.

(** The socket holds packets of the devices [ds], in that order, and
    nothing else: [recv] returns each id in turn and then raises the timeout
    error. *)
Inductive drained : UMP St -> list Z -> UMP St -> Prop :=
| drained_timeout u u' msg oserrno :
    recv L u = (Raise (UMPError msg (Some LIBUMP_TIMEOUT) oserrno), u') ->
    drained u [] u'
| drained_packet u d u1 ds u' :
    recv L u = (Return d, u1) ->
    drained u1 ds u' ->
    drained u (d :: ds) u'.

Fixpoint invoke_all (ms : list method) (u : UMP St) : option (UMP St) :=
  match ms with
  | [] => Some u
  | m :: ms =>
      match invoke m u with
      | Some u1 => invoke_all ms u1
      | None => None
      end
  end.

End Client.

(** A handle for device [d] built with an axis-count override. *)
Definition overrides (d : Z) (m : method) : Prop :=
  match m with
  | m_SensapexDevice devid _ (Some _) => devid = d
  | _ => False
  end.

Section StateProperties.
Context {St : Type}.

(** ** Properties of the state that the transport methods keep

    A property of the session state is a [frame] when the three things a
    transport method can do keep it: a library call that is not an
    axis-count query, an axis-count query for a device that has no entry in
    the cache (answered, so the entry is written, or failed), and an observer
    notification. *)
Record frame (P : UMP St -> Prop) : Prop := {
  frame_call : forall u st fn args,
    fn <> "ump_get_axis_count_ext" -> P u -> P (log_call fn args (set_lib_st st u));
  frame_query : forall u st dev c,
    _ump_has_axis_count u = true -> _axis_counts u !! dev = None -> P u ->
    P (set__axis_counts (<[dev := c]> (_axis_counts u))
         (log_call "ump_get_axis_count_ext" [dev] (set_lib_st st u)));
  frame_query_failed : forall u st dev,
    _ump_has_axis_count u = true -> _axis_counts u !! dev = None -> P u ->
    P (log_call "ump_get_axis_count_ext" [dev] (set_lib_st st u));
  frame_notify : forall u n, P u -> P (log_notification n u)
}.

(** The ids [recv_all] keeps of those received. *)
Definition positive_ids (ds : list Z) : gset Z :=
  list_to_set (filter (fun d => 0 < d) ds).

(** The cache holds [n] for device [d], the library has the axis-count
    function, and since the record of calls read [base] no axis-count query
    for [d] was made. *)
Definition overridden (d n : Z) (base : list (string * list Z)) (u : UMP St) : Prop :=
  _ump_has_axis_count u = true
  /\ _axis_counts u !! d = Some n
  /\ exists extra, transport_calls u = base ++ extra
                   /\ ~ In ("ump_get_axis_count_ext", [d]) extra.

End StateProperties.

(** ** The rest of the observer table: lookup and [remove_callback] *)

#[global] Instance callback_eq_dec : EqDecision callback.
Proof. solve_decision. Defined.

(** [callbacks.get(dev_id)]. *)
Fixpoint callbacks_get (dev_id : Z) (d : list (Z * list callback)) : option (list callback) :=
  match d with
  | [] => None
  | (k, l) :: d => if k =? dev_id then Some l else callbacks_get dev_id d
  end.

(** [l.remove(cb)]: the list without the first element equal to [cb];
    [None] for the [ValueError] of a list that has none. *)
Fixpoint list_remove (cb : callback) (l : list callback) : option (list callback) :=
  match l with
  | [] => None
  | x :: l =>
      if decide (x = cb) then Some l
      else option_map (cons x) (list_remove cb l)
  end.

(** What [PollThread.remove_callback] does: it returns, or the subscript
    [callbacks[dev_id]] raises [KeyError], or [remove] raises [ValueError]. *)
Inductive removal (A : Type) :=
| Removed (a : A)
| RaisesKeyError (key : Z)
| RaisesValueError.
Arguments Removed {A} a.
Arguments RaisesKeyError {A} key.
Arguments RaisesValueError {A}.

(** [callbacks[dev_id].remove(callback)] on the table. *)
Fixpoint table_remove (dev_id : Z) (cb : callback)
    (d : list (Z * list callback)) : removal (list (Z * list callback)) :=
  match d with
  | [] => RaisesKeyError dev_id
  | (k, l) :: d =>
      if k =? dev_id then
        match list_remove cb l with
        | Some l' => Removed ((k, l') :: d)
        | None => RaisesValueError
        end
      else
        match table_remove dev_id cb d with
        | Removed d' => Removed ((k, l) :: d')
        | RaisesKeyError key => RaisesKeyError key
        | RaisesValueError => RaisesValueError
        end
  end.

(** [PollThread.remove_callback]. *)
Definition remove_callback (dev_id : Z) (cb : callback) (p : PollThread) : removal PollThread :=
  match table_remove dev_id cb (callbacks p) with
  | Removed d =>
      Removed {| callbacks := d; interval := interval p; _stop := _stop p; alive := alive p |}
  | RaisesKeyError key => RaisesKeyError key
  | RaisesValueError => RaisesValueError
  end.

(** The notifications [notify_all] makes, in order. *)
Definition notifications (dev_callbacks : list callback) (dev_id : Z)
    (new_pos : list Z) (old_pos : option (list Z)) : list notification :=
  map (fun cb => {| n_cb := cb; n_dev := dev_id; n_new := new_pos; n_old := old_pos |})
    dev_callbacks.

(** ** A scripted library, for running the wrapper

    A stand-in for [libump] with a call counter: [inbound] is the queue of
    packets waiting on the socket (a [Failure] makes the receive fail with
    that code), [devices] the cached position cells of each known device (or
    the error code its position query fails with; an unknown device fails
    with -5), [axes] the answer to an axis-count query, [set_timeout_error]
    the code [ump_set_timeout] fails with, if any. *)
Inductive event :=
| Packet (dev : Z)
| Failure (code : Z).

Inductive device :=
| Position (xyzwe : list Z)
| Faulty (code : Z).

Record fake := {
  inbound : list event;
  devices : gmap Z device;
  axes : Z;
  set_timeout_error : option Z;
  fake_last_error : Z;
  fake_last_device : Z;
  n_calls : nat
}.

Definition fake_step (f : fake) (inbound' : list event) (err dev : Z) : fake :=
  {| inbound := inbound'; devices := devices f; axes := axes f;
     set_timeout_error := set_timeout_error f;
     fake_last_error := err; fake_last_device := dev; n_calls := S (n_calls f) |}.

Definition fake_ok (f : fake) : fake :=
  fake_step f (inbound f) (fake_last_error f) (fake_last_device f).

Definition fake_fail (f : fake) (code : Z) : fake :=
  fake_step f (inbound f) code (fake_last_device f).

Definition hd_default (args : list Z) : Z :=
  match args with
  | a :: _ => a
  | [] => 0
  end.

Definition fake_fn (fn : string) (hd : Z) (args : list Z) (f : fake) : Z * list Z * fake :=
  if String.eqb fn "ump_receive" then
    match inbound f with
    | [] => (0, [], fake_ok f)
    | Packet d :: q => (1, [], fake_step f q (fake_last_error f) d)
    | Failure c :: q => (c, [], fake_step f q c (fake_last_device f))
    end
  else if String.eqb fn "ump_get_positions_ext" then
    match devices f !! hd_default args with
    | Some (Position xyzwe) => (0, xyzwe, fake_ok f)
    | Some (Faulty c) => (c, [], fake_fail f c)
    | None => (-5, [], fake_fail f (-5))
    end
  else if String.eqb fn "ump_get_axis_count_ext" then (axes f, [], fake_ok f)
  else if String.eqb fn "ump_set_timeout" then
    match set_timeout_error f with
    | Some c => (c, [], fake_fail f c)
    | None => (0, [], fake_ok f)
    end
  else (0, [], fake_ok f).

Definition fake_lib (has_axis_count : bool) : Lib fake := {|
  ump_open := fun address timeout group f => (1, f);
  ump_close := fun hd f => f;
  lib_fn := fake_fn;
  ump_last_error := fake_last_error;
  ump_last_os_errno := fun f => 0;
  ump_errorstr := fun code => if code =? -3 then "Timeout" else "Error";
  ump_is_busy_status := fun status => status;
  last_device_received := fake_last_device;
  has_ump_get_axis_count_ext := has_axis_count;
  strerror := fun code => "Success"
|}.

Definition fake_init (inbound : list event) (devices : list (Z * device))
    (axes : Z) (set_timeout_error : option Z) : fake :=
  {| inbound := inbound; devices := list_to_map devices; axes := axes;
     set_timeout_error := set_timeout_error;
     fake_last_error := 0; fake_last_device := 0; n_calls := 0 |}.

(** The session [UMP(start_poller=...)] builds over the scripted library. *)
Definition session (has_axis_count start_poller : bool) (f : fake) : UMP fake :=
  snd (UMP_init (fake_lib has_axis_count) None None start_poller f).

(** The world outside moves a device: its cached cells change. *)
Definition moved (dev : Z) (xyzwe : list Z) (u : UMP fake) : UMP fake :=
  set_lib_st
    {| inbound := inbound (lib_st u);
       devices := <[dev := Position xyzwe]> (devices (lib_st u));
       axes := axes (lib_st u);
       set_timeout_error := set_timeout_error (lib_st u);
       fake_last_error := fake_last_error (lib_st u);
       fake_last_device := fake_last_device (lib_st u);
       n_calls := n_calls (lib_st u) |} u.

(** *** Sessions used in the examples *)

(** A closed session: built, then closed. *)
Definition closed_session (has_axis_count : bool) : UMP fake :=
  snd (close (fake_lib has_axis_count)
         (session has_axis_count true (fake_init [] [] 3 None))).

(** Devices 0 and 2 answer, device 1 fails with the unexpected code -7; the
    socket holds a packet of device 0, two of device 3, a receive failure
    with code -7 between them, and one packet of device 7. *)
Definition busy_session : UMP fake :=
  session true false
    (fake_init [Packet 0; Packet 3; Failure (-7); Packet 3; Packet 7]
       [(0, Position [1; 2; 3; 0; 0]); (1, Faulty (-7)); (2, Position [4; 5; 6; 0; 0])]
       3 None).

(** The test of the specification: packets of devices 3, 3 and 7. *)
Definition packets_session : UMP fake :=
  session true false (fake_init [Packet 3; Packet 3; Packet 7] [] 3 None).

(** A library whose [ump_set_timeout] fails with code -7. *)
Definition stubborn_session : UMP fake :=
  session true false (fake_init [] [(0, Position [1; 2; 3; 0; 0])] 3 (Some (-7))).

(** Device 1 has three axes and sits at (10, 20, 30). *)
Definition resting_session (has_axis_count : bool) : UMP fake :=
  session has_axis_count false (fake_init [] [(1, Position [10; 20; 30; 40; 0])] 3 None).

(** A receive failure with the unexpected code -7 is the first thing on the
    socket. *)
Definition failing_session : UMP fake :=
  session true false (fake_init [Failure (-7); Packet 7] [] 3 None).

(** Two device handles, for devices 1 and 2, each with an observer; the
    poller runs.  Device 1 rests at (0, 0, 0), device 2 at (7, 7, 7). *)
Definition watched_session : UMP fake :=
  snd (SensapexDevice_init 2 (Some 200%nat) None
         (snd (SensapexDevice_init 1 (Some 100%nat) None
                 (session true true
                    (fake_init []
                       [(1, Position [0; 0; 0; 0; 0]); (2, Position [7; 7; 7; 0; 0])]
                       3 None))))).

(** The first trip of the poller's loop; then device 1 moves to (0, 0, 5)
    and the loop makes its second trip; nothing moves before the third. *)
Definition first_trip : UMP fake :=
  snd (run_iteration (fake_lib true) ∅ watched_session).

Definition second_trip : UMP fake :=
  snd (run_iteration (fake_lib true) ∅ (moved 1 [0; 0; 5; 0; 0] first_trip)).

Definition third_trip : UMP fake :=
  snd (run_iteration (fake_lib true) ∅ second_trip).

(** The outcome of a method that may loop. *)
Definition outcome_of {A : Type} (r : option (outcome A * UMP fake)) : option (outcome A) :=
  match r with
  | Some (o, _) => Some o
  | None => None
  end.

(** A handle for device 1 with the axis count overridden to 2. *)
Definition overridden_session (has_axis_count : bool) : UMP fake :=
  snd (SensapexDevice_init 1 None (Some 2) (resting_session has_axis_count)).

(** A short program: read a position through the handle, list the devices,
    let the poller make a trip. *)
Definition small_program : list method :=
  [m_get_pos 1 None; m_list_devices 3; m_poller_trip ∅].

Definition after_program (has_axis_count : bool) (ms : list method) (u : UMP fake) : UMP fake :=
  match invoke_all (fake_lib has_axis_count) ms u with
  | Some u' => u'
  | None => u
  end.

(** Some state of the scripted library after [n] receive calls. *)
Definition after_receives (n : nat) (u : UMP fake) : UMP fake :=
  Nat.iter n (fun v => snd (recv (fake_lib true) v)) u.

(** Device 1 has three axes and rests at the origin. *)
Definition origin_session : UMP fake :=
  session true false (fake_init [] [(1, Position [0; 0; 0; 0; 0])] 3 None).

(** The library calls a method that may loop has made when it is over. *)
Definition calls_of {A : Type} (r : option (outcome A * UMP fake)) : list (string * list Z) :=
  match r with
  | Some (_, u') => transport_calls u'
  | None => []
  end.

(** The watched session after [PollThread.stop()]. *)
Definition stopped_session : UMP fake :=
  set_poller (PollThread_stop (poller watched_session)) watched_session.

(** Handles for a device 1 that does not exist and for device 2, which
    rests at (7, 7, 7). *)
Definition blocked_session : UMP fake :=
  snd (SensapexDevice_init 2 (Some 200%nat) None
         (snd (SensapexDevice_init 1 (Some 100%nat) None
                 (session true false
                    (fake_init [] [(2, Position [7; 7; 7; 0; 0])] 3 None))))).

(** The state a method leaves, for a method that may loop. *)
Definition state_after {A : Type} (u : UMP fake)
    (r : option (outcome A * UMP fake)) : UMP fake :=
  match r with
  | Some (_, u') => u'
  | None => u
  end.

(** ** The planner as the specification words it

    The specification gives the planner as a formula over numbers, with no
    rounding: [diff[i] = p[i] - c[i]], [dist = max(1, euclideanNorm(diff))]
    and [speed[i] = max(32, s * |diff[i]| / dist)] for each axis present,
    zero-padded to 4 axes.  These definitions follow its words, over the
    real numbers; they are not read off the code. *)
Definition euclideanNorm (v : list R) : R :=
  sqrt (fold_right (fun d acc => d * d + acc)%R 0%R v).

Definition spec_speed (s dist d : R) : R :=
  Rmax 32 (s * Rabs d / dist).

Definition spec_diff (p c : list Z) : list R :=
  map (fun pc => IZR (fst pc - snd pc)) (combine (pad4 0 p) c).

Definition spec_goto_speeds (p : list Z) (s : R) (c : list Z) : list R :=
  let diff := spec_diff p c in
  let dist := Rmax 1 (euclideanNorm diff) in
  pad4 0%R (map (spec_speed s dist) diff).

(** * Properties *)

(** ** The motion planner *)

Lemma combine_app_self {A : Type} (l x : list A) :
  combine (l ++ x) l = combine l l.
Proof.
  induction l as [| a l IH]; simpl.
  - now destruct x.
  - now rewrite IH.
Qed.

Lemma float_of_Z_0 : float_of_Z 0 = Some 0%float.
Proof. vm_compute. reflexivity. Qed.

(** A null move: every displacement is [float(0)]. *)
Lemma planner_diff_null (c : list Z) :
  planner_diff (pad4 0 c) c = Some (repeat 0%float (length c)).
Proof.
  unfold planner_diff, pad4. rewrite combine_app_self.
  induction c as [| a c IH]; [reflexivity |].
  cbn [combine map length repeat fst snd float_all].
  rewrite IH, Z.sub_diag, float_of_Z_0. reflexivity.
Qed.

Lemma length_pad4 {A : Type} (z : A) (l : list A) :
  length (pad4 z l) = Nat.max 4 (length l).
Proof. unfold pad4. rewrite length_app, repeat_length. lia. Qed.

Lemma nth_error_pad4 {A : Type} (z : A) (l : list A) (i : nat) :
  (i < length l)%nat -> nth_error (pad4 z l) i = nth_error l i.
Proof. intros Hi. unfold pad4. now rewrite nth_error_app1. Qed.

(** A zero displacement is driven at the floor whatever the speed and the
    distance are, infinities and nan included: [0 / dist] is a zero or nan,
    and so is its product with the speed, which is not above 32. *)
Lemma floor_on_zero_binary64 (s dist d : float) (b : bool) :
  Prim2SF d = S754_zero b ->
  py_max 32%float (s * PrimFloat.abs (d / dist))%float = 32%float.
Proof.
  intros Hd. unfold py_max.
  rewrite ltb_spec, mul_spec, abs_spec, div_spec, Hd.
  change (Prim2SF 32) with (S754_finite false 4503599627370496 (-47)).
  destruct (Prim2SF dist) as [sd | sd | | sd md ed],
           (Prim2SF s) as [ss | ss | | ss ms es]; reflexivity.
Qed.

Lemma nth_pad4 (p : list Z) (i : nat) : nth i (pad4 0%Z p) 0%Z = nth i p 0%Z.
Proof.
  unfold pad4. destruct (Nat.lt_ge_cases i (length p)) as [Hlt | Hge].
  - now rewrite app_nth1.
  - rewrite app_nth2 by exact Hge. rewrite nth_repeat.
    now rewrite (nth_overflow p).
Qed.

Lemma nth_combine {A B : Type} (l : list A) (l' : list B) (i : nat) (x : A) (y : B) :
  (i < length l)%nat -> (i < length l')%nat ->
  nth i (combine l l') (x, y) = (nth i l x, nth i l' y).
Proof.
  revert l' i; induction l as [| a l IH]; intros [| b l'] [| i]; simpl;
    intros H1 H2; try lia; [reflexivity |].
  apply IH; lia.
Qed.

Lemma float_all_length (xs : list Z) (ds : list float) :
  float_all xs = Some ds -> length ds = length xs.
Proof.
  revert ds; induction xs as [| x xs IH]; intros ds; simpl.
  - now intros [= <-].
  - destruct (float_of_Z x); [| discriminate].
    destruct (float_all xs) as [ds' |]; [| discriminate].
    intros [= <-]. simpl. now rewrite (IH ds').
Qed.

Lemma float_all_nth (xs : list Z) (ds : list float) (i : nat) :
  float_all xs = Some ds -> (i < length xs)%nat ->
  float_of_Z (nth i xs 0) = Some (nth i ds 0%float).
Proof.
  revert ds i; induction xs as [| x xs IH]; intros ds i; simpl; [lia |].
  destruct (float_of_Z x) as [d |] eqn:Hx; [| discriminate].
  destruct (float_all xs) as [ds' |]; [| discriminate].
  intros [= <-] Hi. destruct i as [| i]; simpl; [exact Hx |].
  apply IH; [reflexivity | lia].
Qed.

Lemma planner_diff_length (pos c : list Z) (diff : list float) :
  planner_diff pos c = Some diff ->
  length diff = Nat.min (length pos) (length c).
Proof.
  unfold planner_diff. intros Hdiff. apply float_all_length in Hdiff.
  now rewrite Hdiff, length_map, length_combine.
Qed.

(** [diff[i] = float(p[i] - c[i])] on the axes the padded target and the
    position share; a coordinate the target leaves out counts as 0. *)
Lemma planner_diff_nth (p c : list Z) (diff : list float) (i : nat) :
  planner_diff (pad4 0 p) c = Some diff ->
  (i < length diff)%nat ->
  float_of_Z (nth i p 0 - nth i c 0) = Some (nth i diff 0%float).
Proof.
  intros Hdiff Hi. pose proof (planner_diff_length _ _ _ Hdiff) as Hlen.
  unfold planner_diff in Hdiff.
  rewrite <- (float_all_nth _ _ i Hdiff)
    by (rewrite length_map, length_combine; lia).
  pose proof (map_nth (fun pc : Z * Z => fst pc - snd pc) (combine (pad4 0 p) c) (0, 0) i)
    as Hnth.
  change ((fun pc : Z * Z => fst pc - snd pc) (0, 0)) with 0 in Hnth.
  rewrite Hnth, nth_combine by lia. simpl. now rewrite nth_pad4.
Qed.

Section PlannerFacts.
Local Open Scope R_scope.

(** At or below a nominal speed of 32 the formula gives the floor on every
    axis. *)
Lemma spec_speed_floor (s dist d : R) :
  1 <= dist -> Rabs d <= dist -> s <= 32 -> spec_speed s dist d = 32.
Proof.
  intros Hdist Hd Hs. unfold spec_speed. apply Rmax_left.
  pose proof (Rabs_pos d) as Hd0.
  apply (Rmult_le_reg_r dist); [lra |].
  unfold Rdiv. rewrite Rmult_assoc, Rinv_l by lra. nra.
Qed.

Lemma euclideanNorm_100 : euclideanNorm [100; 0; 0] = 100.
Proof.
  unfold euclideanNorm; simpl.
  replace (100 * 100 + (0 * 0 + (0 * 0 + 0))) with (Rsqr 100) by (unfold Rsqr; lra).
  rewrite sqrt_Rsqr; lra.
Qed.

Lemma euclideanNorm_65_72 : euclideanNorm [65; 72; 0] = 97.
Proof.
  unfold euclideanNorm; simpl.
  replace (65 * 65 + (72 * 72 + (0 * 0 + 0))) with (Rsqr 97) by (unfold Rsqr; lra).
  rewrite sqrt_Rsqr; lra.
Qed.

(** C3, as the code has it.  For current position [0,0,0], target
    [100,0,0] and nominal speed 10 the planner derives [diff = [100,0,0]],
    [dist = 100] and the speed vector [32,32,32,0]: the floor of 32 applies
    to the two axes that do not move as well, and only the padding entry is
    0.  Stated for the code, in binary64, where it is also what [goto_pos]
    hands to the library, and for the formula of the specification, over
    the real numbers. *)
Theorem planner_example :
  planner_diff (pad4 0%Z [100; 0; 0]%Z) [0; 0; 0]%Z = Some [100; 0; 0]%float
  /\ planner_dist [100; 0; 0]%float = 100%float
  /\ goto_speeds [100; 0; 0]%Z 10%float [0; 0; 0]%Z = Some [32; 32; 32; 0]%float
  /\ calls_of (goto_pos (fake_lib true) 0 1 [100; 0; 0]%Z 10%float false true
                 origin_session)
     = [("ump_get_positions_ext", [1; 0]%Z);
        ("ump_get_axis_count_ext", [1]%Z);
        ("ump_goto_position_ext2", [1; 100; 0; 0; 0; 32; 32; 32; 0; 1]%Z);
        ("ump_receive", [1]%Z)]
  /\ spec_diff [100; 0; 0]%Z [0; 0; 0]%Z = [100; 0; 0]
  /\ Rmax 1 (euclideanNorm (spec_diff [100; 0; 0]%Z [0; 0; 0]%Z)) = 100
  /\ spec_goto_speeds [100; 0; 0]%Z 10 [0; 0; 0]%Z = [32; 32; 32; 0].
Proof.
  split; [vm_compute; reflexivity |].
  split; [vm_compute; reflexivity |].
  split; [vm_compute; reflexivity |].
  split; [vm_compute; reflexivity |].
  assert (Hdiff : spec_diff [100; 0; 0]%Z [0; 0; 0]%Z = [100; 0; 0]) by reflexivity.
  assert (Hdist : Rmax 1 (euclideanNorm (spec_diff [100; 0; 0]%Z [0; 0; 0]%Z)) = 100).
  { rewrite Hdiff, euclideanNorm_100. apply Rmax_right. lra. }
  split; [exact Hdiff |].
  split; [exact Hdist |].
  unfold spec_goto_speeds. cbv zeta. rewrite Hdist, Hdiff.
  unfold pad4; simpl.
  rewrite !spec_speed_floor; try lra; try reflexivity;
    rewrite ?Rabs_R0, ?Rabs_pos_eq; lra.
Qed.

(** The vector the claim names, [32,0,0,0], is not what the planner
    computes for that input. *)
Lemma planner_example_not_single_axis :
  goto_speeds [100; 0; 0]%Z 10%float [0; 0; 0]%Z <> Some [32; 0; 0; 0]%float.
Proof.
  intros Heq.
  apply (f_equal (fun o => match o with
                           | Some l => PrimFloat.ltb 0 (nth 1 l 0%float)
                           | None => false
                           end)) in Heq.
  vm_compute in Heq. discriminate.
Qed.

End PlannerFacts.

(** ** The session *)

Section SessionFacts.
Context {St : Type} (L : Lib St).

(** What a [call] leaves behind: nothing on a closed session; otherwise the
    library's new state and one more entry in the record of calls. *)
Lemma call_inv (fn : string) (args : list Z) (u u' : UMP St) (r : outcome (Z * list Z)) :
  call L fn args u = (r, u') ->
  (h u = None /\ u' = u /\ r = Raise not_open)
  \/ (exists hd, h u = Some hd
        /\ u' = log_call fn args
                  (set_lib_st (snd (lib_fn L fn hd args (lib_st u))) u)
        /\ ((exists e, r = Raise e /\ fst (fst (lib_fn L fn hd args (lib_st u))) < 0)
            \/ (r = Return (fst (lib_fn L fn hd args (lib_st u)))
                /\ 0 <= fst (fst (lib_fn L fn hd args (lib_st u)))))).
Proof.
  unfold call. destruct (h u) as [hd |] eqn:Hh.
  - destruct (lib_fn L fn hd args (lib_st u)) as [[rval outs] st] eqn:Hfn. simpl.
    destruct (rval <? 0) eqn:Hneg.
    + apply Z.ltb_lt in Hneg.
      destruct (ump_last_error L st =? -1); intros [= <- <-];
        right; exists hd; rewrite Hfn; simpl;
        (split; [reflexivity |]); (split; [reflexivity |]);
        left; eexists; split; eauto.
    + apply Z.ltb_ge in Hneg. intros [= <- <-].
      right; exists hd; rewrite Hfn; simpl;
        (split; [reflexivity |]); (split; [reflexivity |]);
        right; split; auto.
  - intros [= <- <-]. left; auto.
Qed.

Lemma call_closed (fn : string) (args : list Z) (u : UMP St) :
  h u = None -> call L fn args u = (Raise not_open, u).
Proof. intros Hh. unfold call. now rewrite Hh. Qed.

Section Frame.
Variable P : UMP St -> Prop.
Hypothesis HP : frame P.

Lemma call_keeps (fn : string) (args : list Z) (u : UMP St) :
  fn <> "ump_get_axis_count_ext" -> P u -> P (snd (call L fn args u)).
Proof using HP.
  intros Hfn Hu.
  destruct (call L fn args u) as [r u'] eqn:Hcall.
  apply call_inv in Hcall as [(_ & -> & _) | (hd & _ & -> & _)]; simpl.
  - exact Hu.
  - now apply (frame_call P HP).
Qed.

Lemma axis_count_keeps (dev : Z) (u : UMP St) :
  P u -> P (snd (axis_count L dev u)).
Proof using HP.
  intros Hu. unfold axis_count.
  destruct (_ump_has_axis_count u) eqn:Hhas; simpl; [| exact Hu].
  destruct (_axis_counts u !! dev) as [c |] eqn:Hc; simpl; [exact Hu |].
  unfold bind.
  destruct (call L "ump_get_axis_count_ext" [dev] u) as [[rc | e] u1] eqn:Hcall;
    apply call_inv in Hcall as [(_ & -> & Hr) | (hd & _ & -> & _)]; simpl;
    try discriminate Hr; try exact Hu.
  - now apply (frame_query P HP).
  - now apply (frame_query_failed P HP).
Qed.

Lemma get_pos_keeps (dev : Z) (timeout : option Z) (u : UMP St) :
  P u -> P (snd (get_pos L dev timeout u)).
Proof using HP.
  intros Hu. unfold get_pos, bind.
  match goal with |- context [call L ?fn ?args u] =>
    pose proof (call_keeps fn args u) as Hk;
    destruct (call L fn args u) as [[r | e] u1] end; simpl in *.
  - specialize (Hk ltac:(discriminate) Hu).
    pose proof (axis_count_keeps dev u1 Hk) as Hk'.
    destruct (axis_count L dev u1) as [[n | e] u2]; simpl in *; exact Hk'.
  - apply Hk; [discriminate | exact Hu].
Qed.

Lemma recv_keeps (u : UMP St) : P u -> P (snd (recv L u)).
Proof using HP.
  intros Hu. unfold recv, bind.
  pose proof (call_keeps "ump_receive" [0] u ltac:(discriminate) Hu) as Hk.
  destruct (call L "ump_receive" [0] u) as [[r | e] u1]; simpl in *; [| exact Hk].
  destruct (fst r =? 0); simpl; exact Hk.
Qed.

Lemma recv_all_loop_keeps (fuel : nat) (d : option Z) (devs : gset Z)
    (u u' : UMP St) (r : outcome (gset Z)) :
  recv_all_loop L fuel d devs u = Some (r, u') -> P u -> P u'.
Proof using HP.
  revert d devs u; induction fuel as [| fuel IH]; intros d devs u; simpl;
    [discriminate |].
  intros Hloop Hu. pose proof (recv_keeps u Hu) as Hk.
  destruct (recv L u) as [[d1 | e] u1]; simpl in Hk.
  - eapply IH; eauto.
  - destruct e as [msg errno oserrno | | | |]; try (injection Hloop as <- <-; exact Hk).
    destruct (bool_decide (errno = Some (-3))); [injection Hloop as <- <-; exact Hk |].
    destruct d as [d0 |]; [eapply IH; eauto | injection Hloop as <- <-; exact Hk].
Qed.

Lemma list_devices_loop_keeps (ids devs : list Z) (u : UMP St) :
  P u -> P (snd (list_devices_loop L ids devs u)).
Proof using HP.
  revert devs u; induction ids as [| i ids IH]; intros devs u Hu; simpl;
    [exact Hu |].
  pose proof (get_pos_keeps i (Some 0) u Hu) as Hk.
  destruct (get_pos L i (Some 0) u) as [[p | e] u1]; simpl in Hk.
  - now apply IH.
  - destruct e as [msg errno oserrno | | | |]; simpl; try exact Hk.
    destruct (bool_decide (errno = Some (-5)) || bool_decide (errno = Some (-6)));
      simpl; [now apply IH | exact Hk].
Qed.

Lemma is_busy_keeps (dev : Z) (u : UMP St) : P u -> P (snd (is_busy L dev u)).
Proof using HP.
  intros Hu. unfold is_busy, bind.
  pose proof (call_keeps "ump_receive" [10] u ltac:(discriminate) Hu) as Hk.
  destruct (call L "ump_receive" [10] u) as [[r | e] u1]; simpl in *; [| exact Hk].
  pose proof (call_keeps "ump_get_status_ext" [c_int dev] u1 ltac:(discriminate) Hk) as Hk'.
  destruct (call L "ump_get_status_ext" [c_int dev] u1) as [[r' | e] u2];
    simpl in *; exact Hk'.
Qed.

Lemma stop_keeps (dev : Z) (u : UMP St) : P u -> P (snd (stop L dev u)).
Proof using HP.
  intros Hu. unfold stop, bind.
  pose proof (call_keeps "ump_stop_ext" [c_int dev] u ltac:(discriminate) Hu) as Hk.
  destruct (call L "ump_stop_ext" [c_int dev] u) as [[r | e] u1]; simpl in *; exact Hk.
Qed.

Lemma stop_all_keeps (u : UMP St) : P u -> P (snd (stop_all L u)).
Proof using HP.
  intros Hu. unfold stop_all, bind.
  pose proof (call_keeps "ump_stop_all" [] u ltac:(discriminate) Hu) as Hk.
  destruct (call L "ump_stop_all" [] u) as [[r | e] u1]; simpl in *; exact Hk.
Qed.

Lemma wait_idle_keeps (fuel : nat) (dev : Z) (u u' : UMP St) (r : outcome unit) :
  wait_idle L fuel dev u = Some (r, u') -> P u -> P u'.
Proof using HP.
  revert u; induction fuel as [| fuel IH]; intros u; simpl; [discriminate |].
  intros Hwait Hu. pose proof (is_busy_keeps dev u Hu) as Hk.
  destruct (is_busy L dev u) as [[[] | e] u1]; simpl in Hk.
  - eapply IH; eauto.
  - now injection Hwait as <- <-.
  - now injection Hwait as <- <-.
Qed.

Lemma goto_pos_keeps (fuel : nat) (dev : Z) (pos : list Z) (speed : float)
    (block simultaneous : bool) (u u' : UMP St) (r : outcome unit) :
  goto_pos L fuel dev pos speed block simultaneous u = Some (r, u') -> P u -> P u'.
Proof using HP.
  intros Hgo Hu. unfold goto_pos in Hgo.
  pose proof (get_pos_keeps dev (Some 0) u Hu) as H1.
  destruct (get_pos L dev (Some 0) u) as [current_pos u1]; simpl in H1.
  match type of Hgo with (match ?a with _ => _ end) = _ => destruct a as [args |] end;
    [| now injection Hgo as <- <-].
  unfold bind in Hgo.
  pose proof (call_keeps "ump_goto_position_ext2" args u1 ltac:(discriminate) H1) as H2.
  destruct (call L "ump_goto_position_ext2" args u1) as [[r2 | e] u2]; simpl in H2;
    [| now injection Hgo as <- <-].
  pose proof (call_keeps "ump_receive" [1] u2 ltac:(discriminate) H2) as H3.
  destruct (call L "ump_receive" [1] u2) as [[r3 | e] u3]; simpl in H3;
    [| now injection Hgo as <- <-].
  destruct block; [| now injection Hgo as <- <-].
  destruct (wait_idle L fuel dev u3) as [[[[] | e] u4] |] eqn:Hwait;
    try discriminate; pose proof (wait_idle_keeps _ _ _ _ _ Hwait H3) as H4;
    [| now injection Hgo as <- <-].
  pose proof (get_pos_keeps dev (Some 0) u4 H4) as H5.
  destruct (get_pos L dev (Some 0) u4) as [[pos2 | e] u5]; simpl in H5;
    [| now injection Hgo as <- <-].
  destruct (broadcastable _ _); now injection Hgo as <- <-.
Qed.

Lemma notify_all_keeps (cbs : list callback) (dev : Z) (new_pos : list Z)
    (old_pos : option (list Z)) (u : UMP St) :
  P u -> P (snd (notify_all cbs dev new_pos old_pos u)).
Proof using HP.
  unfold notify_all; simpl. revert u.
  induction cbs as [| cb cbs IH]; intros u Hu; simpl; [exact Hu |].
  apply IH. now apply (frame_notify P HP).
Qed.

Lemma poll_devices_keeps (n : nat) (last_pos : gmap Z (list Z))
    (items : list (Z * list callback)) (u : UMP St) :
  P u -> P (snd (poll_devices L n last_pos items u)).
Proof using HP.
  revert u; induction items as [| [dev cbs] items IH]; intros u Hu; simpl;
    [exact Hu |].
  unfold bind, poll_device.
  destruct (n =? 0)%nat; simpl; [now apply IH |].
  unfold bind.
  pose proof (get_pos_keeps dev (Some 20) u Hu) as Hk.
  destruct (get_pos L dev (Some 20) u) as [[p | e] u1]; simpl in *; [| exact Hk].
  destruct (bool_decide (Some p ≠ last_pos !! dev)); simpl.
  - apply IH. now apply notify_all_keeps.
  - now apply IH.
Qed.

Lemma run_iteration_keeps (last_pos : gmap Z (list Z)) (u : UMP St) :
  P u -> P (snd (run_iteration L last_pos u)).
Proof using HP.
  intros Hu. unfold run_iteration.
  destruct (_stop (poller u)); simpl; [exact Hu |].
  unfold run_body.
  destruct (py_int _) as [ms |]; simpl; [| exact Hu].
  unfold bind.
  pose proof (call_keeps "ump_receive" [c_int ms] u ltac:(discriminate) Hu) as Hk.
  destruct (call L "ump_receive" [c_int ms] u) as [[r | e] u1]; simpl in *;
    [| exact Hk].
  now apply poll_devices_keeps.
Qed.

End Frame.

(** *** [call] *)

(** C8.  [call] raises the not-open error on a session without a handle.
    Otherwise it hands [fn] and [args] to the library; a negative result
    raises an OS-level [UMPError] built from the OS errno when the last-error
    code is -1, and for any other code a [UMPError] that carries the code,
    the library's error string, [fn] and [args]; a non-negative result is
    returned as it is. *)
Theorem call_outcomes (fn : string) (args : list Z) (u : UMP St) :
  (h u = None -> call L fn args u = (Raise (TypeError "UMP is not open."), u))
  /\ (forall hd rval outs st,
        h u = Some hd ->
        lib_fn L fn hd args (lib_st u) = (rval, outs, st) ->
        let u1 := log_call fn args (set_lib_st st u) in
        let err := ump_last_error L st in
        let oserr := ump_last_os_errno L st in
        (rval < 0 -> err = -1 ->
           call L fn args u
           = (Raise (UMPError (OsErrorText oserr (strerror L oserr)) None (Some oserr)), u1))
        /\ (rval < 0 -> err <> -1 ->
              call L fn args u
              = (Raise (UMPError (DeviceErrorText err (ump_errorstr L err) fn args)
                          (Some err) None), u1))
        /\ (0 <= rval -> call L fn args u = (Return (rval, outs), u1))).
Proof.
  split.
  - apply call_closed.
  - intros hd rval outs st Hh Hfn u1 err oserr.
    unfold call. rewrite Hh, Hfn. fold u1 err oserr.
    repeat split.
    + intros Hneg Herr. apply Z.ltb_lt in Hneg. rewrite Hneg.
      apply Z.eqb_eq in Herr. now rewrite Herr.
    + intros Hneg Herr. apply Z.ltb_lt in Hneg. rewrite Hneg.
      apply Z.eqb_neq in Herr. now rewrite Herr.
    + intros Hpos. apply Z.ltb_ge in Hpos. now rewrite Hpos.
Qed.

End SessionFacts.

(** [call] on the scripted library: a closed session, a device that does
    not exist (code -5), and a position query that succeeds. *)
Lemma call_outcomes_witness :
  fst (call (fake_lib true) "ump_stop_all" [] (closed_session true))
  = Raise (TypeError "UMP is not open.")
  /\ fst (call (fake_lib true) "ump_get_positions_ext" [5; 0] busy_session)
     = Raise (UMPError (DeviceErrorText (-5) "Error" "ump_get_positions_ext" [5; 0])
                (Some (-5)) None)
  /\ fst (call (fake_lib true) "ump_get_positions_ext" [2; 0] busy_session)
     = Return (0, [4; 5; 6; 0; 0]).
Proof.
  split; [| split].
  - rewrite (proj1 (call_outcomes (fake_lib true) "ump_stop_all" [] (closed_session true)));
      reflexivity.
  - pose proof (proj2 (call_outcomes (fake_lib true) "ump_get_positions_ext" [5; 0]
                         busy_session) 1 (-5) [] _ eq_refl eq_refl) as (_ & Hdev & _).
    rewrite Hdev; [reflexivity | reflexivity | discriminate].
  - pose proof (proj2 (call_outcomes (fake_lib true) "ump_get_positions_ext" [2; 0]
                         busy_session) 1 0 [4; 5; 6; 0; 0] _ eq_refl eq_refl) as (_ & _ & Hok).
    rewrite Hok; [reflexivity | discriminate].
Defined.

(** *** The stored timeout *)

Section TimeoutFacts.
Context {St : Type} (L : Lib St).

(** The transport methods never assign [_timeout]. *)
Lemma timeout_frame (t : Z) : frame (fun u : UMP St => _timeout u = t).
Proof. split; intros; simpl; assumption. Qed.

(** [set_timeout] stores its argument before it calls the library, so the
    stored value is the argument whether the call succeeds or raises. *)
Lemma set_timeout_stores (t : Z) (u : UMP St) :
  _timeout (snd (set_timeout L t u)) = t.
Proof.
  unfold set_timeout, bind.
  pose proof (call_keeps L _ (timeout_frame t) "ump_set_timeout" [t]
                (set__timeout t u) ltac:(discriminate) eq_refl) as Hk.
  destruct (call L "ump_set_timeout" [t] (set__timeout t u)) as [[r | e] u1];
    exact Hk.
Qed.

(** C6, as the code has it.  Once the call that lowers the timeout has
    returned, [list_devices] and [recv_all] leave the stored timeout as they
    found it, whether they return or raise, whatever error ends them. *)
Theorem timeout_restored (u : UMP St) :
  (forall max_id,
     fst (set_timeout L 20 u) = Return tt ->
     _timeout (snd (list_devices L max_id u)) = _timeout u)
  /\ (forall fuel r u',
        fst (set_timeout L 0 u) = Return tt ->
        recv_all L fuel u = Some (r, u') ->
        _timeout u' = _timeout u).
Proof.
  split.
  - intros max_id Hlower. unfold list_devices, bind.
    destruct (set_timeout L 20 u) as [[[] | e] u1]; [| discriminate Hlower].
    unfold try_finally.
    destruct (list_devices_loop L _ [] u1) as [r u2].
    pose proof (set_timeout_stores (_timeout u) u2) as Hfin.
    destruct (set_timeout L (_timeout u) u2) as [[[] | e] u3]; exact Hfin.
  - intros fuel r u' Hlower. unfold recv_all.
    destruct (set_timeout L 0 u) as [[[] | e] u1]; [| discriminate Hlower].
    destruct (recv_all_loop L fuel None ∅ u1) as [[r2 u2] |]; [| discriminate].
    pose proof (set_timeout_stores (_timeout u) u2) as Hfin.
    destruct (set_timeout L (_timeout u) u2) as [[[] | e] u3];
      intros [= <- <-]; exact Hfin.
Qed.

(** Inside the guarded region the stored timeout is the lowered one. *)
Lemma list_devices_loop_timeout (ids devs : list Z) (u : UMP St) :
  _timeout (snd (list_devices_loop L ids devs u)) = _timeout u.
Proof. now apply (list_devices_loop_keeps L _ (timeout_frame (_timeout u))). Qed.

(** *** [recv_all] *)

Lemma recv_all_loop_positive (fuel : nat) (d : option Z) (devs devs' : gset Z)
    (u u' : UMP St) :
  (forall x, x ∈ devs -> 0 < x) ->
  recv_all_loop L fuel d devs u = Some (Return devs', u') ->
  forall x, x ∈ devs' -> 0 < x.
Proof.
  revert d devs u; induction fuel as [| fuel IH]; intros d devs u Hdevs; simpl;
    [discriminate |].
  assert (Hadd : forall y, forall x,
             x ∈ (if 0 <? y then {[ y ]} ∪ devs else devs) -> 0 < x).
  { intros y x. destruct (0 <? y) eqn:Hy; [| apply Hdevs].
    apply Z.ltb_lt in Hy. intros [Hx | Hx]%elem_of_union; [| now apply Hdevs].
    apply elem_of_singleton in Hx. now subst. }
  destruct (recv L u) as [[d1 | e] u1].
  - apply IH, Hadd.
  - destruct e as [msg errno oserrno | | | |]; try discriminate.
    destruct (bool_decide (errno = Some (-3))); [now intros [= <- <-] |].
    destruct d as [d0 |]; [apply IH, Hadd | discriminate].
Qed.

(** C9.  Every id in the list [recv_all] returns is strictly positive; in
    particular device 0 is never in it, whatever packets arrived. *)
Theorem recv_all_positive_ids (fuel : nat) (u u' : UMP St) (devs : list Z) :
  recv_all L fuel u = Some (Return devs, u') ->
  (forall d, In d devs -> 0 < d) /\ ~ In 0 devs.
Proof.
  intros Hrecv.
  assert (Hpos : forall d, In d devs -> 0 < d).
  { unfold recv_all in Hrecv.
    destruct (set_timeout L 0 u) as [[[] | e] u1]; [| discriminate].
    destruct (recv_all_loop L fuel None ∅ u1) as [[r2 u2] |] eqn:Hloop;
      [| discriminate].
    destruct (set_timeout L (_timeout u) u2) as [[[] | e] u3]; [| discriminate].
    destruct r2 as [devs2 | e]; [| discriminate].
    injection Hrecv as <- <-.
    intros d Hd. apply list_elem_of_In, elem_of_elements in Hd.
    eapply recv_all_loop_positive; [| exact Hloop | exact Hd].
    intros x Hx. now apply not_elem_of_empty in Hx. }
  split; [exact Hpos |].
  intros H0. apply Hpos in H0. lia.
Qed.

End TimeoutFacts.

(** The restoration at work: device 1 fails with the unexpected code -7
    after device 0 was probed, and [list_devices] raises with the timeout
    back at 200; [recv_all] meets a receive failure and returns with it back
    at 200. *)
Lemma timeout_restored_witness :
  fst (list_devices (fake_lib true) 5 busy_session)
  = Raise (UMPError (DeviceErrorText (-7) "Error" "ump_get_positions_ext" [1; 0])
             (Some (-7)) None)
  /\ _timeout (snd (list_devices (fake_lib true) 5 busy_session)) = 200
  /\ _timeout (state_after busy_session (recv_all (fake_lib true) 9 busy_session)) = 200.
Proof.
  split; [vm_compute; reflexivity |].
  split.
  - exact (proj1 (timeout_restored (fake_lib true) busy_session) 5 eq_refl).
  - destruct (recv_all (fake_lib true) 9 busy_session) as [[r u'] |] eqn:Hrecv;
      [| vm_compute in Hrecv; discriminate].
    exact (proj2 (timeout_restored (fake_lib true) busy_session) 9%nat r u' eq_refl Hrecv).
Defined.

(** When the lowering call itself raises, the temporary value stays: on a
    library whose [ump_set_timeout] fails, and on a closed session. *)
Lemma timeout_left_lowered :
  _timeout stubborn_session = 200
  /\ fst (list_devices (fake_lib true) 5 stubborn_session)
     = Raise (UMPError (DeviceErrorText (-7) "Error" "ump_set_timeout" [20])
                (Some (-7)) None)
  /\ _timeout (snd (list_devices (fake_lib true) 5 stubborn_session)) = 20
  /\ _timeout (state_after stubborn_session
                 (recv_all (fake_lib true) 9 stubborn_session)) = 0
  /\ _timeout (closed_session true) = 200
  /\ fst (list_devices (fake_lib true) 5 (closed_session true))
     = Raise (TypeError "UMP is not open.")
  /\ _timeout (snd (list_devices (fake_lib true) 5 (closed_session true))) = 20.
Proof. vm_compute. repeat split; reflexivity. Qed.

(** Packets of devices 0, 3, 3 and 7 are waiting: the list holds 3 and 7. *)
Lemma recv_all_positive_ids_witness :
  exists u', recv_all (fake_lib true) 9 busy_session = Some (Return [7; 3], u')
             /\ ~ In 0 [7; 3].
Proof.
  destruct (recv_all (fake_lib true) 9 busy_session) as [[r u'] |] eqn:Hrecv;
    [| vm_compute in Hrecv; discriminate].
  assert (Hr : r = Return [7; 3]).
  { apply (f_equal (fun o => match o with Some (r, _) => Some r | None => None end)) in Hrecv.
    vm_compute in Hrecv. now injection Hrecv as <-. }
  subst r. exists u'. split; [reflexivity |].
  exact (proj2 (recv_all_positive_ids (fake_lib true) 9 busy_session u' [7; 3] Hrecv)).
Defined.

(** *** [get_pos] and [axis_count] *)

Section PositionFacts.
Context {St : Type} (L : Lib St).

Lemma length_cells (outs : list Z) : length (cells outs) = 5%nat.
Proof.
  unfold cells. rewrite length_firstn, length_app, repeat_length. lia.
Qed.

Lemma length_py_slice_to (n : Z) (outs : list Z) :
  0 <= n <= 5 -> length (py_slice_to n (cells outs)) = Z.to_nat n.
Proof.
  intros Hn. unfold py_slice_to.
  destruct (0 <=? n) eqn:Hle; [| apply Z.leb_gt in Hle; lia].
  rewrite length_firstn, length_cells. lia.
Qed.

(** An axis count that is returned is the one the next query returns, and
    the only library call it can cost is one axis-count query, made when the
    library has the function and the cache has no entry. *)
Lemma axis_count_inv (dev n : Z) (u u' : UMP St) :
  axis_count L dev u = (Return n, u') ->
  axis_count L dev u' = (Return n, u')
  /\ transport_calls u'
     = transport_calls u
       ++ (if _ump_has_axis_count u && bool_decide (_axis_counts u !! dev = None)
           then [("ump_get_axis_count_ext", [dev])] else []).
Proof.
  unfold axis_count.
  destruct (_ump_has_axis_count u) eqn:Hhas; simpl.
  - destruct (_axis_counts u !! dev) as [c |] eqn:Hc; simpl.
    + intros [= <- <-]. rewrite Hhas, Hc. simpl. now rewrite app_nil_r.
    + unfold bind.
      destruct (call L "ump_get_axis_count_ext" [dev] u) as [[rc | e] u1] eqn:Hcall;
        [| discriminate].
      apply call_inv in Hcall as [(_ & _ & Hr) | (hd & Hh & -> & _)];
        [discriminate Hr |].
      intros [= <- <-]. simpl. rewrite Hhas. simpl.
      now rewrite lookup_insert_eq.
  - intros [= <- <-]. rewrite Hhas. simpl. now rewrite app_nil_r.
Qed.


End PositionFacts.



(** *** [close] *)

Section CloseFacts.
Context {St : Type} (L : Lib St).

Lemma bind_call_closed {A : Type} (fn : string) (args : list Z)
    (k : Z * list Z -> py A) (u : UMP St) :
  h u = None -> bind (call L fn args) k u = (Raise (TypeError "UMP is not open."), u).
Proof. intros Hh. unfold bind. now rewrite (call_closed L fn args u Hh). Qed.

Lemma set_timeout_closed (t : Z) (u : UMP St) :
  h u = None ->
  set_timeout L t u = (Raise (TypeError "UMP is not open."), set__timeout t u).
Proof. intros Hh. unfold set_timeout. now apply bind_call_closed. Qed.

(** C7, as the code has it.  [close] raises nothing and leaves the session
    without a handle and the poller thread not alive.  A second [close]
    raises nothing either and changes no field of the session; it hands the
    library one more [ump_close], with the null handle.  On the closed
    session [call] raises the not-open error whatever it is asked, and so
    does every method that reaches the library through it: [get_pos],
    [set_timeout], [recv], [is_busy], [stop], [stop_all], [list_devices],
    [recv_all], and [goto_pos] when its speed has an integer part. *)
Theorem close_twice (u : UMP St) :
  let u1 := snd (close L u) in
  fst (close L u) = Return tt
  /\ h u1 = None
  /\ alive (poller u1) = false
  /\ close L u1 = (Return tt, set_lib_st (ump_close L None (lib_st u1)) u1)
  /\ (forall fn args, call L fn args u1 = (Raise (TypeError "UMP is not open."), u1))
  /\ (forall dev timeout,
        get_pos L dev timeout u1 = (Raise (TypeError "UMP is not open."), u1))
  /\ (forall t, fst (set_timeout L t u1) = Raise (TypeError "UMP is not open."))
  /\ recv L u1 = (Raise (TypeError "UMP is not open."), u1)
  /\ (forall dev, is_busy L dev u1 = (Raise (TypeError "UMP is not open."), u1))
  /\ (forall dev, stop L dev u1 = (Raise (TypeError "UMP is not open."), u1))
  /\ stop_all L u1 = (Raise (TypeError "UMP is not open."), u1)
  /\ (forall max_id,
        fst (list_devices L max_id u1) = Raise (TypeError "UMP is not open."))
  /\ (forall fuel,
        recv_all L fuel u1
        = Some (Raise (TypeError "UMP is not open."), set__timeout 0 u1))
  /\ (forall fuel dev pos speed block simultaneous,
        py_int (py_max 1%float speed) <> None ->
        goto_pos L fuel dev pos speed block simultaneous u1
        = Some (Raise (TypeError "UMP is not open."), u1)).
Proof.
  intros u1.
  assert (Hh : h u1 = None) by reflexivity.
  assert (Halive : alive (poller u1) = false).
  { unfold u1, close. destruct (alive (poller u)) eqn:Ha; simpl; [reflexivity | exact Ha]. }
  split; [reflexivity |]. split; [exact Hh |]. split; [exact Halive |].
  split.
  { unfold close at 1. rewrite Halive, Hh. reflexivity. }
  split; [intros; now apply call_closed |].
  split; [intros; unfold get_pos; now apply bind_call_closed |].
  split; [intros; now rewrite set_timeout_closed |].
  split; [unfold recv; now apply bind_call_closed |].
  split; [intros; unfold is_busy; now apply bind_call_closed |].
  split; [intros; unfold stop; now apply bind_call_closed |].
  split; [unfold stop_all; now apply bind_call_closed |].
  split; [intros max_id; unfold list_devices, bind; now rewrite set_timeout_closed |].
  split; [intros fuel; unfold recv_all; now rewrite set_timeout_closed |].
  intros fuel dev pos speed block simultaneous Hint. unfold goto_pos.
  replace (get_pos L dev (Some 0) u1) with (Raise (A:=list Z) not_open, u1)
    by (symmetry; unfold get_pos; now apply bind_call_closed).
  destruct (py_int (py_max 1%float speed)) as [sp |]; [| contradiction].
  now rewrite bind_call_closed.
Qed.

End CloseFacts.

(** A move requested on a closed session, at a nominal speed of 10. *)
Lemma close_twice_witness :
  goto_pos (fake_lib true) 0 1 [100; 0; 0] 10%float false true
    (snd (close (fake_lib true) (resting_session true)))
  = Some (Raise (TypeError "UMP is not open."),
          snd (close (fake_lib true) (resting_session true))).
Proof.
  pose proof (close_twice (fake_lib true) (resting_session true)) as H.
  cbv zeta in H. repeat (destruct H as [_ H]).
  apply H. vm_compute. discriminate.
Defined.

(** Not every method fails on a closed session: [axis_count] still answers,
    with the default when the library has no axis-count function and with
    the cached count when it has one, and [open] opens the session again;
    none of them raises the not-open error. *)
Lemma closed_session_still_answers :
  h (closed_session false) = None
  /\ fst (axis_count (fake_lib false) 1 (closed_session false)) = Return 4
  /\ fst (axis_count (fake_lib true) 1
            (snd (close (fake_lib true)
                    (snd (get_pos (fake_lib true) 1 (Some 0) (resting_session true))))))
     = Return 3
  /\ fst (open (fake_lib true) None None (closed_session true)) = Return tt.
Proof. vm_compute. repeat split; reflexivity. Qed.

(** *** [recv_all] and errors other than the timeout *)

Section ReceiveFacts.
Context {St : Type} (L : Lib St).

Lemma recv_all_loop_drains (u u' : UMP St) (ds : list Z) :
  drained L u ds u' ->
  forall fuel d devs,
    (length ds < fuel)%nat ->
    recv_all_loop L fuel d devs u = Some (Return (devs ∪ positive_ids ds), u').
Proof.
  induction 1 as [u u' msg oserrno Hrecv | u d1 u1 ds u' Hrecv Hrest IH];
    intros fuel d devs Hfuel; (destruct fuel as [| fuel]; [simpl in Hfuel; lia |]);
    simpl; rewrite Hrecv.
  - simpl. f_equal. f_equal. f_equal. unfold positive_ids.
    rewrite filter_nil, list_to_set_nil. now rewrite (right_id_L ∅ (∪)).
  - rewrite IH by (simpl in Hfuel; lia). f_equal. f_equal. f_equal.
    unfold positive_ids. rewrite filter_cons.
    destruct (0 <? d1) eqn:Hd.
    + apply Z.ltb_lt in Hd. rewrite decide_True by exact Hd.
      rewrite list_to_set_cons, (comm_L (∪) {[ d1 ]} devs).
      now rewrite (assoc_L (∪)).
    + apply Z.ltb_ge in Hd. rewrite decide_False by lia. reflexivity.
Qed.

(** C5, as the code has it.  Under a timeout lowered to 0, [recv_all] takes
    packets one at a time until [recv] raises the timeout error (code -3);
    it then puts the timeout back and returns, once each, the ids received
    that are greater than 0.  With [fuel] above the number of packets the
    loop is over within [fuel] trips. *)
Theorem recv_all_drains (u u1 u2 u3 : UMP St) (ds : list Z) (fuel : nat) :
  set_timeout L 0 u = (Return tt, u1) ->
  drained L u1 ds u2 ->
  set_timeout L (_timeout u) u2 = (Return tt, u3) ->
  (length ds < fuel)%nat ->
  exists devs,
    recv_all L fuel u = Some (Return devs, u3)
    /\ List.NoDup devs
    /\ (forall d, In d devs <-> In d ds /\ 0 < d).
Proof.
  intros Hlower Hdrained Hrestore Hfuel.
  exists (elements (∅ ∪ positive_ids ds)). split; [| split].
  - unfold recv_all. rewrite Hlower.
    rewrite (recv_all_loop_drains u1 u2 ds Hdrained fuel None ∅ Hfuel).
    now rewrite Hrestore.
  - apply NoDup_ListNoDup, NoDup_elements.
  - intros d. rewrite <- list_elem_of_In, elem_of_elements.
    unfold positive_ids.
    rewrite elem_of_union, elem_of_list_to_set, list_elem_of_filter, list_elem_of_In.
    split.
    + intros [Hempty | [Hpos Hin]]; [now apply not_elem_of_empty in Hempty | tauto].
    + intros [Hin Hpos]. right. tauto.
Qed.

End ReceiveFacts.

(** The test of the specification: packets of devices 3, 3 and 7, then the
    timeout.  Four trips drain the socket. *)
Lemma recv_all_drains_witness :
  exists devs u3,
    recv_all (fake_lib true) 4 packets_session = Some (Return devs, u3)
    /\ List.NoDup devs
    /\ (forall d, In d devs <-> In d [3; 3; 7] /\ 0 < d).
Proof.
  pose (u1 := snd (set_timeout (fake_lib true) 0 packets_session)).
  pose (u2 := after_receives 4 u1).
  pose (u3 := snd (set_timeout (fake_lib true) 200 u2)).
  destruct (recv_all_drains (fake_lib true) packets_session u1 u2 u3 [3; 3; 7] 4)
    as (devs & Hrecv & Hnodup & Hin).
  - vm_compute; reflexivity.
  - apply (drained_packet _ _ 3 (after_receives 1 u1)); [vm_compute; reflexivity |].
    apply (drained_packet _ _ 3 (after_receives 2 u1)); [vm_compute; reflexivity |].
    apply (drained_packet _ _ 7 (after_receives 3 u1)); [vm_compute; reflexivity |].
    apply (drained_timeout _ _ _ (PlainText "Timeout") None). vm_compute; reflexivity.
  - vm_compute; reflexivity.
  - simpl. lia.
  - exists devs, u3. auto.
Defined.

(** C5 fails as stated on these inputs.  A receive failure with code -7
    between the packets is not raised: [recv_all] goes on and returns as if
    nothing had happened; the packet of device 0 was received and its id is
    not in the list.  When that failure is the first thing received, what
    [recv_all] raises is an [UnboundLocalError], not the [UMPError]. *)
Lemma recv_all_swallows_errors :
  outcome_of (recv_all (fake_lib true) 9 busy_session) = Some (Return [7; 3])
  /\ outcome_of (recv_all (fake_lib true) 9 failing_session)
     = Some (Raise (UnboundLocalError "d")).
Proof. vm_compute. repeat split; reflexivity. Qed.

(** *** The poller *)

(** C1 on its failing input.  Device 1 moves once, between the first and
    the second trip of the loop; device 2 never moves.  Both observers are
    called on every trip, the third included, and always with [None] as the
    old position: [last_pos] is never assigned. *)
Theorem poller_notifies_every_trip :
  notified watched_session = []
  /\ notified third_trip
     = [ {| n_cb := change_callback 1 (Some 100%nat); n_dev := 1;
            n_new := [0; 0; 0]; n_old := None |};
         {| n_cb := change_callback 2 (Some 200%nat); n_dev := 2;
            n_new := [7; 7; 7]; n_old := None |};
         {| n_cb := change_callback 1 (Some 100%nat); n_dev := 1;
            n_new := [0; 0; 5]; n_old := None |};
         {| n_cb := change_callback 2 (Some 200%nat); n_dev := 2;
            n_new := [7; 7; 7]; n_old := None |};
         {| n_cb := change_callback 1 (Some 100%nat); n_dev := 1;
            n_new := [0; 0; 5]; n_old := None |};
         {| n_cb := change_callback 2 (Some 200%nat); n_dev := 2;
            n_new := [7; 7; 7]; n_old := None |} ].
Proof. vm_compute. split; reflexivity. Qed.

(** *** The axis-count override of a device handle *)

Section OverrideFacts.
Context {St : Type} (L : Lib St).

Lemma overridden_frame (d n : Z) (base : list (string * list Z)) :
  frame (St:=St) (overridden d n base).
Proof.
  split.
  - intros u st fn args Hfn (Hhas & Hc & extra & Hcalls & Hquiet).
    split; [exact Hhas |]. split; [exact Hc |].
    exists (extra ++ [(fn, args)]). simpl. rewrite Hcalls, app_assoc.
    split; [reflexivity |].
    intros [Hin | [Heq | []]]%in_app_or; [now apply Hquiet | congruence].
  - intros u st dev c _ Hmiss (Hhas & Hc & extra & Hcalls & Hquiet).
    assert (Hne : dev <> d) by congruence.
    split; [exact Hhas |]. split; [simpl; now rewrite lookup_insert_ne |].
    exists (extra ++ [("ump_get_axis_count_ext", [dev])]). simpl.
    rewrite Hcalls, app_assoc. split; [reflexivity |].
    intros [Hin | [Heq | []]]%in_app_or; [now apply Hquiet | congruence].
  - intros u st dev _ Hmiss (Hhas & Hc & extra & Hcalls & Hquiet).
    assert (Hne : dev <> d) by congruence.
    split; [exact Hhas |]. split; [exact Hc |].
    exists (extra ++ [("ump_get_axis_count_ext", [dev])]). simpl.
    rewrite Hcalls, app_assoc. split; [reflexivity |].
    intros [Hin | [Heq | []]]%in_app_or; [now apply Hquiet | congruence].
  - intros u n0 Hu. exact Hu.
Qed.

(** A frame that the bookkeeping of the session keeps as well (storing a
    timeout, replacing the poller object, the handle or the library state)
    is kept by every program whose handle constructions it [allows]. *)
Section Programs.
Variable P : UMP St -> Prop.
Variable allows : method -> Prop.
Hypothesis HF : frame P.
Hypothesis Htimeout : forall u t, P u -> P (set__timeout t u).
Hypothesis Hpoller : forall u p, P u -> P (set_poller p u).
Hypothesis Hhandle : forall u v, P u -> P (set_h v u).
Hypothesis Hlib : forall u st, P u -> P (set_lib_st st u).
Hypothesis Hoverride : forall u devid cb n,
  allows (m_SensapexDevice devid cb (Some n)) -> P u ->
  P (set__axis_counts (<[devid := n]> (_axis_counts u)) u).

Lemma set_timeout_keeps (t : Z) (u : UMP St) :
  P u -> P (snd (set_timeout L t u)).
Proof using HF Htimeout.
  intros Hu. unfold set_timeout, bind.
  pose proof (call_keeps L _ HF "ump_set_timeout" [t]
                (set__timeout t u) ltac:(discriminate) (Htimeout u t Hu)) as Hk.
  destruct (call L "ump_set_timeout" [t] (set__timeout t u)) as [[r | e] u1];
    exact Hk.
Qed.

Lemma invoke_keeps (m : method) (u u' : UMP St) :
  allows m -> invoke L m u = Some u' -> P u -> P u'.
Proof using HF Htimeout Hpoller Hhandle Hlib Hoverride.
  intros Hm Hinv Hu. destruct m; simpl in Hinv.
  - injection Hinv as <-. now apply set_timeout_keeps.
  - injection Hinv as <-. now apply axis_count_keeps.
  - injection Hinv as <-. now apply get_pos_keeps.
  - destruct (goto_pos L fuel dev pos speed block simultaneous u) as [[r u1] |] eqn:Hgo;
      [| discriminate].
    injection Hinv as <-. eapply goto_pos_keeps; eauto.
  - injection Hinv as <-. now apply is_busy_keeps.
  - injection Hinv as <-. now apply stop_keeps.
  - injection Hinv as <-. now apply stop_all_keeps.
  - injection Hinv as <-. now apply recv_keeps.
  - unfold recv_all in Hinv.
    pose proof (set_timeout_keeps 0 u Hu) as H1.
    destruct (set_timeout L 0 u) as [[[] | e] u1]; simpl in *;
      [| injection Hinv as <-; exact H1].
    destruct (recv_all_loop L fuel None ∅ u1) as [[r2 u2] |] eqn:Hloop;
      [| discriminate].
    pose proof (recv_all_loop_keeps L _ HF _ _ _ _ _ _ Hloop H1) as H2.
    pose proof (set_timeout_keeps (_timeout u) u2 H2) as H3.
    destruct (set_timeout L (_timeout u) u2) as [[[] | e] u3]; simpl in *;
      injection Hinv as <-; exact H3.
  - injection Hinv as <-. unfold list_devices, bind.
    pose proof (set_timeout_keeps 20 u Hu) as H1.
    destruct (set_timeout L 20 u) as [[[] | e] u1]; simpl in *; [| exact H1].
    unfold try_finally.
    pose proof (list_devices_loop_keeps L _ HF
                  (py_range (Z.min max_id LIBUMP_MAX_MANIPULATORS)) [] u1 H1) as H2.
    destruct (list_devices_loop L _ [] u1) as [r u2]; simpl in H2.
    pose proof (set_timeout_keeps (_timeout u) u2 H2) as H3.
    destruct (set_timeout L (_timeout u) u2) as [[[] | e] u3]; exact H3.
  - injection Hinv as <-. unfold close. simpl.
    apply Hhandle, Hlib. destruct (alive (poller u)); [now apply Hpoller | exact Hu].
  - injection Hinv as <-. unfold SensapexDevice_init. simpl. apply Hpoller.
    destruct n_axes as [n' |]; [eapply Hoverride; eauto | exact Hu].
  - injection Hinv as <-. now apply run_iteration_keeps.
Qed.

Lemma invoke_all_keeps (ms : list method) (u u' : UMP St) :
  Forall allows ms -> invoke_all L ms u = Some u' -> P u -> P u'.
Proof using HF Htimeout Hpoller Hhandle Hlib Hoverride.
  revert u; induction ms as [| m ms IH]; intros u Hms; simpl.
  - now intros [= <-].
  - inversion Hms as [| m' ms' Hm Hms']; subst.
    destruct (invoke L m u) as [u1 |] eqn:Hinv; [| discriminate].
    intros Hall Hu. eapply IH; eauto using invoke_keeps.
Qed.

End Programs.

(** The flag [_ump_has_axis_count] is set when the session is built and no
    program changes it. *)
Lemma has_axis_count_kept (b : bool) (ms : list method) (u u' : UMP St) :
  invoke_all L ms u = Some u' ->
  _ump_has_axis_count u = b -> _ump_has_axis_count u' = b.
Proof.
  apply (invoke_all_keeps (fun v => _ump_has_axis_count v = b) (fun _ => True));
    try (intros; simpl; assumption).
  - split; intros; simpl; assumption.
  - apply Forall_forall. trivial.
Qed.

(** No program disturbs an override, unless it builds another handle that
    overrides the same device. *)
Lemma overridden_kept (d n : Z) (base : list (string * list Z))
    (ms : list method) (u u' : UMP St) :
  Forall (fun m => ~ overrides d m) ms -> invoke_all L ms u = Some u' ->
  overridden d n base u -> overridden d n base u'.
Proof.
  apply (invoke_all_keeps (overridden d n base) (fun m => ~ overrides d m)).
  - apply overridden_frame.
  - intros v t Hv. exact Hv.
  - intros v p Hv. exact Hv.
  - intros v hd Hv. exact Hv.
  - intros v st Hv. exact Hv.
  - intros v devid cb n' Hm (Hhas & Hc & Hcalls).
    split; [exact Hhas |]. split; [| exact Hcalls].
    simpl. rewrite lookup_insert_ne; [exact Hc | exact Hm].
Qed.


End OverrideFacts.



(** *** The poller's loop *)

Section PollerFacts.
Context {St : Type} (L : Lib St).

Lemma poller_frame (p : PollThread) : frame (fun u : UMP St => poller u = p).
Proof. split; intros; simpl; assumption. Qed.

Lemma run_loop_goes_on (fuel : nat) (last_pos : gmap Z (list Z)) (u : UMP St) :
  _stop (poller u) = false -> run_loop L fuel last_pos u = None.
Proof.
  revert u; induction fuel as [| fuel IH]; intros u Hstop; simpl; [reflexivity |].
  pose proof (run_iteration_keeps L _ (poller_frame (poller u)) last_pos u eq_refl)
    as Hsame.
  unfold run_iteration in *. rewrite Hstop in *. simpl in *.
  apply IH. now rewrite Hsame.
Qed.

(** The loop of [PollThread.run] ends at its next test of [_stop] once the
    flag is set, leaving the session as it is; while the flag is clear no
    number of trips ends it, whatever the library calls and the observers'
    devices raise on the way. *)
Theorem run_until_stopped (u : UMP St) :
  (_stop (poller u) = true -> forall fuel, run L (S fuel) u = Some u)
  /\ (_stop (poller u) = false -> forall fuel, run L fuel u = None).
Proof.
  split.
  - intros Hstop fuel. unfold run; simpl. unfold run_iteration. now rewrite Hstop.
  - intros Hstop fuel. now apply run_loop_goes_on.
Qed.

End PollerFacts.

(** The poller of the watched session is still going after three trips; it
    is over at once when the flag is set. *)
Lemma run_until_stopped_witness :
  run (fake_lib true) 3 watched_session = None
  /\ run (fake_lib true) 1 stopped_session = Some stopped_session.
Proof.
  split.
  - apply (proj2 (run_until_stopped (fake_lib true) watched_session)). reflexivity.
  - apply (proj1 (run_until_stopped (fake_lib true) stopped_session)). reflexivity.
Defined.

(** * Further properties of the code *)

(** ** The observer table *)

Section TableFacts.

Lemma setdefault_append_get (dev_id : Z) (cb : callback) (d : list (Z * list callback))
    (k : Z) :
  callbacks_get k (setdefault_append dev_id cb d)
  = if k =? dev_id
    then Some (match callbacks_get dev_id d with Some l => l | None => [] end ++ [cb])
    else callbacks_get k d.
Proof.
  induction d as [| [k0 l0] d IH]; simpl.
  - destruct (Z.eqb_spec dev_id k) as [-> | Hne].
    + now rewrite Z.eqb_refl.
    + destruct (Z.eqb_spec k dev_id); [congruence | reflexivity].
  - destruct (Z.eqb_spec k0 dev_id) as [-> | Hne]; simpl.
    + destruct (Z.eqb_spec dev_id k) as [<- | Hne'].
      * now rewrite Z.eqb_refl.
      * destruct (Z.eqb_spec k dev_id); [congruence | reflexivity].
    + destruct (Z.eqb_spec k0 k) as [-> | Hne'].
      * destruct (Z.eqb_spec k dev_id); [congruence | reflexivity].
      * exact IH.
Qed.

Lemma setdefault_append_keys (dev_id : Z) (cb : callback) (d : list (Z * list callback)) :
  map fst (setdefault_append dev_id cb d)
  = match callbacks_get dev_id d with
    | Some _ => map fst d
    | None => map fst d ++ [dev_id]
    end.
Proof.
  induction d as [| [k0 l0] d IH]; simpl; [reflexivity |].
  destruct (k0 =? dev_id); simpl; [reflexivity |].
  rewrite IH. now destruct (callbacks_get dev_id d).
Qed.

Lemma callbacks_get_None (dev_id : Z) (d : list (Z * list callback)) :
  callbacks_get dev_id d = None -> ~ In dev_id (map fst d).
Proof.
  induction d as [| [k0 l0] d IH]; simpl; [tauto |].
  destruct (Z.eqb_spec k0 dev_id); [discriminate |].
  intros Hget [Heq | Hin]; [congruence | now apply IH].
Qed.

(** [add_callback] keeps the table a dictionary and appends: the observers
    of [dev_id] afterwards are those before (none when the device had no
    entry) followed by the new one, the lists of all other devices are
    untouched, no key appears twice, and the poller's flags are as they
    were: adding an observer does not start the thread. *)
Theorem add_callback_table (dev_id : Z) (cb : callback) (p : PollThread) :
  callbacks_get dev_id (callbacks (add_callback dev_id cb p))
  = Some (match callbacks_get dev_id (callbacks p) with Some l => l | None => [] end
          ++ [cb])
  /\ (forall k, k <> dev_id ->
        callbacks_get k (callbacks (add_callback dev_id cb p))
        = callbacks_get k (callbacks p))
  /\ (List.NoDup (map fst (callbacks p)) ->
      List.NoDup (map fst (callbacks (add_callback dev_id cb p))))
  /\ _stop (add_callback dev_id cb p) = _stop p
  /\ alive (add_callback dev_id cb p) = alive p.
Proof.
  unfold add_callback; simpl. repeat split.
  - rewrite setdefault_append_get. now rewrite Z.eqb_refl.
  - intros k Hk. rewrite setdefault_append_get.
    destruct (Z.eqb_spec k dev_id); [contradiction | reflexivity].
  - intros Hnd. rewrite setdefault_append_keys.
    destruct (callbacks_get dev_id (callbacks p)) eqn:Hget; [exact Hnd |].
    apply NoDup_ListNoDup, NoDup_app. apply NoDup_ListNoDup in Hnd.
    split; [exact Hnd |]. split; [| apply NoDup_singleton].
    intros x Hx Hx'. apply list_elem_of_singleton in Hx'. subst x.
    apply list_elem_of_In in Hx. now apply callbacks_get_None in Hget.
Qed.

Lemma list_remove_app_new (cb : callback) (l : list callback) :
  ~ In cb l -> list_remove cb (l ++ [cb]) = Some l.
Proof.
  induction l as [| x l IH]; simpl; intros Hin.
  - now rewrite decide_True.
  - rewrite decide_False by (intros ->; tauto).
    rewrite IH by tauto. reflexivity.
Qed.

Lemma table_remove_missing (dev_id : Z) (cb : callback) (d : list (Z * list callback)) :
  callbacks_get dev_id d = None -> table_remove dev_id cb d = RaisesKeyError dev_id.
Proof.
  induction d as [| [k0 l0] d IH]; simpl; [reflexivity |].
  destruct (k0 =? dev_id); [discriminate |]. intros Hget. now rewrite IH.
Qed.

Lemma table_remove_added (dev_id : Z) (cb : callback) (d : list (Z * list callback)) :
  (forall l, callbacks_get dev_id d = Some l -> ~ In cb l) ->
  table_remove dev_id cb (setdefault_append dev_id cb d)
  = Removed (match callbacks_get dev_id d with
             | Some _ => d
             | None => d ++ [(dev_id, [])]
             end).
Proof.
  induction d as [| [k0 l0] d IH]; simpl; intros Hnew.
  - rewrite Z.eqb_refl. simpl. now rewrite decide_True.
  - destruct (k0 =? dev_id) eqn:Hk; simpl; rewrite Hk.
    + rewrite list_remove_app_new by now apply Hnew. reflexivity.
    + rewrite IH by exact Hnew. now destruct (callbacks_get dev_id d).
Qed.

Lemma callbacks_get_app_new (dev_id k : Z) (l : list callback)
    (d : list (Z * list callback)) :
  callbacks_get dev_id d = None ->
  callbacks_get k (d ++ [(dev_id, l)])
  = if k =? dev_id then Some l else callbacks_get k d.
Proof.
  induction d as [| [k0 l0] d IH]; simpl.
  - intros _. now rewrite (Z.eqb_sym dev_id k).
  - destruct (Z.eqb_spec k0 dev_id) as [-> | Hne]; [discriminate |].
    intros Hget. destruct (Z.eqb_spec k0 k) as [-> | Hne'].
    + destruct (Z.eqb_spec k dev_id); [congruence | reflexivity].
    + now apply IH.
Qed.

Lemma list_remove_absent (cb : callback) (l : list callback) :
  ~ In cb l -> list_remove cb l = None.
Proof.
  induction l as [| x l IH]; simpl; intros Hin; [reflexivity |].
  rewrite decide_False by (intros ->; tauto).
  rewrite IH by tauto. reflexivity.
Qed.

Lemma table_remove_absent (dev_id : Z) (cb : callback) (l : list callback)
    (d : list (Z * list callback)) :
  callbacks_get dev_id d = Some l -> ~ In cb l ->
  table_remove dev_id cb d = RaisesValueError.
Proof.
  induction d as [| [k0 l0] d IH]; simpl; [discriminate |].
  destruct (k0 =? dev_id).
  - intros [= ->] Hin. now rewrite list_remove_absent.
  - intros Hget Hin. now rewrite IH.
Qed.

(** [remove_callback] undoes [add_callback] only in part.  For a device
    without an entry it raises [KeyError], and for an observer that is not
    in the device's list [ValueError].  Removing an observer that was just
    added (and was not registered for the device before) leaves every
    device with the observers it had, and the table itself as it was when
    the device already had an entry; but an entry that the addition created
    stays, with an empty list: the key is never deleted. *)
Theorem remove_callback_after_add (dev_id : Z) (cb : callback) (p : PollThread) :
  (callbacks_get dev_id (callbacks p) = None ->
   remove_callback dev_id cb p = RaisesKeyError dev_id)
  /\ (forall l, callbacks_get dev_id (callbacks p) = Some l -> ~ In cb l ->
       remove_callback dev_id cb p = RaisesValueError)
  /\ ((forall l, callbacks_get dev_id (callbacks p) = Some l -> ~ In cb l) ->
      exists p',
        remove_callback dev_id cb (add_callback dev_id cb p) = Removed p'
        /\ (forall k, k <> dev_id ->
              callbacks_get k (callbacks p') = callbacks_get k (callbacks p))
        /\ callbacks_get dev_id (callbacks p')
           = Some (match callbacks_get dev_id (callbacks p) with
                   | Some l => l
                   | None => []
                   end)
        /\ (callbacks_get dev_id (callbacks p) <> None -> callbacks p' = callbacks p)).
Proof.
  split; [| split].
  - intros Hget. unfold remove_callback. now rewrite table_remove_missing.
  - intros l Hget Hin. unfold remove_callback.
    now rewrite (table_remove_absent dev_id cb l).
  - intros Hnew. unfold remove_callback, add_callback; simpl.
    rewrite table_remove_added by exact Hnew.
    eexists; split; [reflexivity |]. simpl.
    destruct (callbacks_get dev_id (callbacks p)) as [l |] eqn:Hget.
    + repeat split; auto.
    + split; [| split; [| congruence]].
      * intros k Hk. rewrite callbacks_get_app_new by exact Hget.
        destruct (Z.eqb_spec k dev_id); [contradiction | reflexivity].
      * rewrite callbacks_get_app_new by exact Hget. now rewrite Z.eqb_refl.
Qed.

End TableFacts.

(** A handle for device 1 is the only observer of the watched session's
    device 1; an observer added for device 5 and removed again leaves an
    empty entry for device 5. *)
Lemma remove_callback_after_add_witness :
  remove_callback 9 (Callable 7) (poller watched_session) = RaisesKeyError 9
  /\ exists p',
       remove_callback 5 (Callable 7) (add_callback 5 (Callable 7) (poller watched_session))
       = Removed p'
       /\ callbacks_get 5 (callbacks p') = Some [].
Proof.
  split.
  - apply (proj1 (remove_callback_after_add 9 (Callable 7) (poller watched_session))).
    reflexivity.
  - destruct (proj2 (proj2 (remove_callback_after_add 5 (Callable 7)
                              (poller watched_session))))
      as (p' & Hrem & _ & Hget & _).
    + intros l Hl. vm_compute in Hl. discriminate.
    + exists p'. split; [exact Hrem | exact Hget].
Defined.

(** ** The poller, device by device *)

Section TripFacts.
Context {St : Type} (L : Lib St).

(** The record of calls only grows. *)
Lemma grows_frame (base : list (string * list Z)) :
  frame (fun u : UMP St => exists extra, transport_calls u = base ++ extra).
Proof.
  split.
  - intros u st fn args _ [extra Hu]. exists (extra ++ [(fn, args)]).
    simpl. now rewrite Hu, app_assoc.
  - intros u st dev c _ _ [extra Hu].
    exists (extra ++ [("ump_get_axis_count_ext", [dev])]).
    simpl. now rewrite Hu, app_assoc.
  - intros u st dev _ _ [extra Hu].
    exists (extra ++ [("ump_get_axis_count_ext", [dev])]).
    simpl. now rewrite Hu, app_assoc.
  - intros u n Hu. exact Hu.
Qed.

Lemma call_notified (fn : string) (args : list Z) (u : UMP St) :
  notified (snd (call L fn args u)) = notified u.
Proof.
  destruct (call L fn args u) as [r u'] eqn:Hcall.
  apply call_inv in Hcall as [(_ & -> & _) | (hd & _ & -> & _)]; reflexivity.
Qed.

Lemma axis_count_notified (dev : Z) (u : UMP St) :
  notified (snd (axis_count L dev u)) = notified u.
Proof.
  unfold axis_count. destruct (_ump_has_axis_count u); simpl; [| reflexivity].
  destruct (_axis_counts u !! dev); simpl; [reflexivity |]. unfold bind.
  pose proof (call_notified "ump_get_axis_count_ext" [dev] u) as Hk.
  destruct (call L "ump_get_axis_count_ext" [dev] u) as [[rc | e] u1]; exact Hk.
Qed.

Lemma get_pos_notified (dev : Z) (timeout : option Z) (u : UMP St) :
  notified (snd (get_pos L dev timeout u)) = notified u.
Proof.
  unfold get_pos, bind.
  match goal with |- context [call L ?fn ?args u] =>
    pose proof (call_notified fn args u) as Hk;
    destruct (call L fn args u) as [[r | e] u1] end; simpl in *; [| exact Hk].
  pose proof (axis_count_notified dev u1) as Hk'.
  destruct (axis_count L dev u1) as [[n | e] u2]; simpl in *; congruence.
Qed.

(** On an open session [get_pos] always sends the position query, first. *)
Lemma get_pos_queries (dev : Z) (timeout : Z) (u : UMP St) :
  h u <> None ->
  exists extra,
    transport_calls (snd (get_pos L dev (Some timeout) u))
    = transport_calls u ++ ("ump_get_positions_ext", [c_int dev; c_int timeout]) :: extra.
Proof.
  intros Hopen. unfold get_pos, bind.
  destruct (call L "ump_get_positions_ext" [c_int dev; c_int timeout] u)
    as [[r | e] u1] eqn:Hcall;
    apply call_inv in Hcall as [(Hh & _) | (hd & _ & -> & _)]; try contradiction.
  - match goal with |- context [axis_count L dev ?v] =>
      pose proof (axis_count_keeps L _ (grows_frame (transport_calls v)) dev v
                    (ex_intro _ [] (eq_sym (app_nil_r _)))) as [extra Hk];
      destruct (axis_count L dev v) as [[n | e] u2] end;
      simpl in *; exists extra; rewrite Hk, <- app_assoc; reflexivity.
  - exists []. reflexivity.
Qed.

Lemma notify_all_notified (cbs : list callback) (dev : Z) (new_pos : list Z)
    (old_pos : option (list Z)) (u : UMP St) :
  notified (snd (notify_all cbs dev new_pos old_pos u))
  = notified u ++ notifications cbs dev new_pos old_pos.
Proof.
  unfold notify_all, notifications; simpl. revert u.
  induction cbs as [| cb cbs IH]; intros u; simpl; [now rewrite app_nil_r |].
  rewrite IH. simpl. now rewrite <- app_assoc.
Qed.

(** [run] compares against a dictionary it never fills.  On a trip in which
    every position is read, with [last_pos] empty as it always is, every
    observer of every device in the table is called, in table order, with
    the device's id and [None] as the old position, whether the device
    moved or not. *)
Theorem trip_notifies_everyone (n : nat) (items : list (Z * list callback))
    (u u' : UMP St) :
  n <> 0%nat ->
  poll_devices L n ∅ items u = (Return tt, u') ->
  exists news,
    notified u' = notified u ++ news
    /\ map n_cb news = concat (map snd items)
    /\ map n_dev news
       = concat (map (fun it => repeat (fst it) (length (snd it))) items)
    /\ Forall (fun x => n_old x = None) news.
Proof.
  intros Hn. revert u.
  induction items as [| [dev cbs] items IH]; intros u; simpl.
  - intros [= <-]. exists []. rewrite app_nil_r. repeat split. constructor.
  - unfold bind, poll_device. destruct (Nat.eqb_spec n 0) as [| _]; [contradiction |].
    unfold bind.
    pose proof (get_pos_notified dev (Some 20) u) as Hsame.
    destruct (get_pos L dev (Some 20) u) as [[p | e] u1]; [| discriminate].
    simpl in Hsame. rewrite lookup_empty.
    rewrite bool_decide_true by discriminate.
    pose proof (notify_all_notified cbs dev p None u1) as Hnote.
    destruct (notify_all cbs dev p None u1) as [[[] | e] u2] eqn:Hall;
      [| unfold notify_all in Hall; discriminate].
    simpl in Hnote. intros Hrest.
    destruct (IH _ Hrest) as (news & Hnews & Hcb & Hdev & Hold).
    exists (notifications cbs dev p None ++ news).
    rewrite Hnews, Hnote, Hsame, <- app_assoc. split; [reflexivity |].
    rewrite !map_app, Hcb, Hdev. unfold notifications. rewrite !map_map. simpl.
    split; [now rewrite map_id |]. split.
    + f_equal. clear. induction cbs; simpl; congruence.
    + apply Forall_app; split; [| exact Hold].
      clear. induction cbs; simpl; constructor; auto.
Qed.

Lemma poll_devices_app (n : nat) (last_pos : gmap Z (list Z))
    (items1 items2 : list (Z * list callback)) (u : UMP St) :
  poll_devices L n last_pos (items1 ++ items2) u
  = bind (poll_devices L n last_pos items1) (fun _ => poll_devices L n last_pos items2) u.
Proof.
  revert u; induction items1 as [| [dev cbs] items1 IH]; intros u; simpl;
    [reflexivity |].
  unfold bind in *.
  destruct (poll_device L n last_pos dev cbs u) as [[[] | e] u1]; [apply IH | reflexivity].
Qed.

(** A device whose position cannot be read ends the trip: the devices after
    it in the table are not asked for their position and their observers
    are not called, and nothing of it shows outside the loop. *)
Theorem trip_stops_at_failure (n : nat) (last_pos : gmap Z (list Z))
    (before after : list (Z * list callback)) (dev : Z) (cbs : list callback)
    (u u1 u2 : UMP St) (e : exn) :
  n <> 0%nat ->
  poll_devices L n last_pos before u = (Return tt, u1) ->
  get_pos L dev (Some 20) u1 = (Raise e, u2) ->
  poll_devices L n last_pos (before ++ (dev, cbs) :: after) u = (Raise e, u2)
  /\ notified u2 = notified u1.
Proof.
  intros Hn Hbefore Hget. split.
  - rewrite poll_devices_app. unfold bind at 1. rewrite Hbefore. simpl.
    unfold bind, poll_device. destruct (Nat.eqb_spec n 0) as [| _]; [contradiction |].
    unfold bind. now rewrite Hget.
  - pose proof (get_pos_notified dev (Some 20) u1) as Hsame.
    now rewrite Hget in Hsame.
Qed.

(** An entry with no observers, which is what [remove_callback] leaves
    behind, is polled all the same: on an open session the position query
    for the device is sent, and nobody is called. *)
Theorem empty_entry_still_polled (n : nat) (last_pos : gmap Z (list Z)) (dev : Z)
    (u : UMP St) :
  n <> 0%nat -> h u <> None ->
  (exists extra,
     transport_calls (snd (poll_device L n last_pos dev [] u))
     = transport_calls u ++ ("ump_get_positions_ext", [c_int dev; 20]) :: extra)
  /\ notified (snd (poll_device L n last_pos dev [] u)) = notified u.
Proof.
  intros Hn Hopen. unfold poll_device.
  destruct (Nat.eqb_spec n 0) as [| _]; [contradiction |]. unfold bind.
  pose proof (get_pos_queries dev 20 u Hopen) as Hq.
  pose proof (get_pos_notified dev (Some 20) u) as Hsame.
  destruct (get_pos L dev (Some 20) u) as [[p | e] u1]; simpl in *.
  - destruct (bool_decide (Some p ≠ last_pos !! dev)); simpl; auto.
  - auto.
Qed.

End TripFacts.

(** Adding a second observer for device 1 of the watched session. *)
Lemma add_callback_table_witness :
  callbacks_get 1 (callbacks (add_callback 1 (Callable 7) (poller watched_session)))
  = Some [change_callback 1 (Some 100%nat); Callable 7]
  /\ callbacks_get 2 (callbacks (add_callback 1 (Callable 7) (poller watched_session)))
     = Some [change_callback 2 (Some 200%nat)]
  /\ List.NoDup (map fst (callbacks (add_callback 1 (Callable 7) (poller watched_session)))).
Proof.
  destruct (add_callback_table 1 (Callable 7) (poller watched_session))
    as (Hget & Hother & Hnodup & _).
  split; [rewrite Hget; reflexivity |].
  split; [rewrite Hother by discriminate; reflexivity |].
  apply Hnodup. vm_compute. repeat constructor; simpl; intuition discriminate.
Defined.

(** One trip over the watched session: both observers are called. *)
Lemma trip_notifies_everyone_witness :
  exists news,
    notified (snd (poll_devices (fake_lib true) 2 ∅ (callbacks (poller watched_session))
                     watched_session))
    = notified watched_session ++ news
    /\ map n_dev news = [1; 2].
Proof.
  assert (Htrip : poll_devices (fake_lib true) 2 ∅ (callbacks (poller watched_session))
                    watched_session
                  = (Return tt,
                     snd (poll_devices (fake_lib true) 2 ∅
                            (callbacks (poller watched_session)) watched_session)))
    by (vm_compute; reflexivity).
  destruct (trip_notifies_everyone (fake_lib true) 2 _ _ _ ltac:(discriminate) Htrip)
    as (news & Hnews & _ & Hdev & _).
  exists news. split; [exact Hnews | exact Hdev].
Defined.

(** The missing device 1 comes first in the table: the trip ends with its
    error and device 2 is not asked. *)
Lemma trip_stops_at_failure_witness :
  poll_devices (fake_lib true) 2 ∅ (callbacks (poller blocked_session)) blocked_session
  = (Raise (UMPError (DeviceErrorText (-5) "Error" "ump_get_positions_ext" [1; 20])
              (Some (-5)) None),
     snd (get_pos (fake_lib true) 1 (Some 20) blocked_session)).
Proof.
  apply (trip_stops_at_failure (fake_lib true) 2 ∅ [] [(2, [change_callback 2 (Some 200%nat)])]
           1 [change_callback 1 (Some 100%nat)] blocked_session blocked_session).
  - discriminate.
  - reflexivity.
  - vm_compute. reflexivity.
Defined.

(** Device 1 of the resting session with an empty observer list. *)
Lemma empty_entry_still_polled_witness :
  notified (snd (poll_device (fake_lib true) 1 ∅ 1 [] (resting_session true)))
  = notified (resting_session true).
Proof.
  apply (empty_entry_still_polled (fake_lib true) 1 ∅ 1 (resting_session true)).
  - discriminate.
  - vm_compute. discriminate.
Defined.

(** ** [axis_count], [set_timeout], [open] and [get_pos] again *)

Section MoreSessionFacts.
Context {St : Type} (L : Lib St).

(** A count is asked of the library at most once per device: a count that
    [axis_count] returned is what the next call returns, without a library
    call or any other change of state; a count that came from the library
    is not negative and is in the cache afterwards; a query that failed
    leaves the cache as it was, so the next call asks again. *)
Theorem axis_count_caches (dev : Z) (u : UMP St) :
  (forall n u',
     axis_count L dev u = (Return n, u') ->
     axis_count L dev u' = (Return n, u')
     /\ (_ump_has_axis_count u = true -> _axis_counts u !! dev = None ->
         0 <= n /\ _axis_counts u' !! dev = Some n))
  /\ (forall e u',
        axis_count L dev u = (Raise e, u') -> _axis_counts u' = _axis_counts u).
Proof.
  split.
  - intros n u' Haxis. split; [now apply (axis_count_inv L dev n u u') |].
    intros Hhas Hmiss. unfold axis_count in Haxis. rewrite Hhas, Hmiss in Haxis.
    simpl in Haxis. unfold bind in Haxis.
    destruct (call L "ump_get_axis_count_ext" [dev] u) as [[rc | e] u1] eqn:Hcall;
      [| discriminate].
    apply call_inv in Hcall as [(_ & _ & Hr) | (hd & _ & -> & [(e & Hr & _) | (Hr & Hpos)])];
      try discriminate.
    injection Hr as ->. injection Haxis as <- <-. simpl.
    split; [exact Hpos | now rewrite lookup_insert_eq].
  - intros e u' Haxis. unfold axis_count in Haxis.
    destruct (_ump_has_axis_count u); simpl in Haxis; [| discriminate].
    destruct (_axis_counts u !! dev); simpl in Haxis; [discriminate |].
    unfold bind in Haxis.
    destruct (call L "ump_get_axis_count_ext" [dev] u) as [[rc | e'] u1] eqn:Hcall;
      [discriminate |].
    apply call_inv in Hcall as [(_ & -> & _) | (hd & _ & -> & _)];
      injection Haxis as _ <-; reflexivity.
Qed.

(** [set_timeout] assigns before it calls: the stored timeout is the
    argument whether the library accepts it, refuses it or the session is
    closed.  On an open session the library gets exactly one
    [ump_set_timeout] call; on a closed one none.  So after a timeout that
    the library refused the two disagree, and the wrapper goes on using the
    refused value: the next [get_pos(dev, timeout=None)] asks for the
    position with it. *)
Theorem set_timeout_effect (t : Z) (u : UMP St) :
  _timeout (snd (set_timeout L t u)) = t
  /\ (h u = None ->
      set_timeout L t u = (Raise (TypeError "UMP is not open."), set__timeout t u))
  /\ (h u <> None ->
      transport_calls (snd (set_timeout L t u))
      = transport_calls u ++ [("ump_set_timeout", [t])])
  /\ _axis_counts (snd (set_timeout L t u)) = _axis_counts u
  /\ h (snd (set_timeout L t u)) = h u
  /\ (h u <> None ->
      forall dev, exists extra,
        transport_calls (snd (get_pos L dev None (snd (set_timeout L t u))))
        = transport_calls u
          ++ [("ump_set_timeout", [t]); ("ump_get_positions_ext", [c_int dev; c_int t])]
          ++ extra).
Proof.
  assert (Hfirst : _timeout (snd (set_timeout L t u)) = t
                   /\ (h u = None ->
                       set_timeout L t u
                       = (Raise (TypeError "UMP is not open."), set__timeout t u))
                   /\ (h u <> None ->
                       transport_calls (snd (set_timeout L t u))
                       = transport_calls u ++ [("ump_set_timeout", [t])])
                   /\ _axis_counts (snd (set_timeout L t u)) = _axis_counts u
                   /\ h (snd (set_timeout L t u)) = h u).
  { unfold set_timeout, bind.
    destruct (call L "ump_set_timeout" [t] (set__timeout t u)) as [r u'] eqn:Hcall.
    pose proof Hcall as Hinv.
    apply call_inv in Hinv as [(Hh & -> & ->) | (hd & Hh & -> & _)]; simpl in Hh.
    - repeat split; try reflexivity; intros; congruence.
    - destruct r as [rv | e]; simpl; repeat split; auto; intros; congruence. }
  destruct Hfirst as (Hstored & Hclosed & Hcalls & Hcache & Hhandle).
  repeat split; auto.
  intros Hopen dev.
  destruct (get_pos_queries L dev t (snd (set_timeout L t u))) as [extra Hq];
    [now rewrite Hhandle |].
  exists extra. unfold get_pos in *. rewrite Hstored.
  rewrite Hq, (Hcalls Hopen), <- app_assoc. reflexivity.
Qed.


(** What a successful [open] of a closed session keeps. *)
Lemma open_frame (address : option string) (group : option Z) (u u' : UMP St) :
  h u = None ->
  open L address group u = (Return tt, u') ->
  _axis_counts u' = _axis_counts u
  /\ poller u' = poller u
  /\ _ump_has_axis_count u' = _ump_has_axis_count u
  /\ exists ptr, h u' = Some ptr.
Proof.
  intros Hclosed. unfold open. rewrite Hclosed.
  destruct (ump_open L _ _ _ _) as [ptr st].
  destruct (ptr <=? 0); intros [= <-]; simpl; eauto 6.
Qed.

(** Closing and opening again is not a fresh start.  The axis counts cached
    before [close] are still answered afterwards without asking the library,
    the observers are still registered, and the poller thread stays dead:
    [open] does not start it. *)
Theorem reopened_session (address : option string) (group : option Z)
    (u u' : UMP St) :
  open L address group (snd (close L u)) = (Return tt, u') ->
  h u' <> None
  /\ _axis_counts u' = _axis_counts u
  /\ (_ump_has_axis_count u = true ->
      forall dev n, _axis_counts u !! dev = Some n ->
                    axis_count L dev u' = (Return n, u'))
  /\ callbacks (poller u') = callbacks (poller u)
  /\ alive (poller u') = false.
Proof.
  intros Hopen.
  assert (Hclosed : h (snd (close L u)) = None)
    by (unfold close; destruct (alive (poller u)); reflexivity).
  destruct (open_frame address group _ _ Hclosed Hopen)
    as (Hcache & Hpoller & Hhas & ptr & Hh).
  assert (Hcache' : _axis_counts u' = _axis_counts u).
  { rewrite Hcache. unfold close. destruct (alive (poller u)); reflexivity. }
  split; [congruence |]. split; [exact Hcache' |]. split.
  - intros Hflag dev n Hn. unfold axis_count.
    rewrite Hhas. unfold close. 
    replace (_ump_has_axis_count (snd (_, _))) with (_ump_has_axis_count u)
      by (destruct (alive (poller u)); reflexivity).
    rewrite Hflag, Hcache', Hn. reflexivity.
  - rewrite Hpoller. unfold close.
    destruct (alive (poller u)) eqn:Ha; simpl; auto.
Qed.

End MoreSessionFacts.

(** The first axis-count query of the resting session is answered by the
    library with 3 and cached; the second costs nothing. *)
Lemma axis_count_caches_witness :
  axis_count (fake_lib true) 1 (snd (axis_count (fake_lib true) 1 (resting_session true)))
  = (Return 3, snd (axis_count (fake_lib true) 1 (resting_session true))).
Proof.
  apply (proj1 (axis_count_caches (fake_lib true) 1 (resting_session true)) 3).
  vm_compute. reflexivity.
Defined.

(** The library of the stubborn session refuses every timeout: the stored
    timeout changes all the same, and the next position query uses it. *)
Lemma set_timeout_effect_witness :
  fst (set_timeout (fake_lib true) 5 stubborn_session)
  = Raise (UMPError (DeviceErrorText (-7) "Error" "ump_set_timeout" [5]) (Some (-7)) None)
  /\ _timeout (snd (set_timeout (fake_lib true) 5 stubborn_session)) = 5
  /\ _timeout stubborn_session = 200
  /\ exists extra,
       transport_calls (snd (get_pos (fake_lib true) 0 None
                               (snd (set_timeout (fake_lib true) 5 stubborn_session))))
       = transport_calls stubborn_session
         ++ [("ump_set_timeout", [5]); ("ump_get_positions_ext", [c_int 0; c_int 5])]
         ++ extra.
Proof.
  split; [vm_compute; reflexivity |].
  split; [apply (set_timeout_effect (fake_lib true) 5 stubborn_session) |].
  split; [reflexivity |].
  apply (set_timeout_effect (fake_lib true) 5 stubborn_session).
  vm_compute. discriminate.
Defined.


(** The watched session with an override for device 1, closed and opened
    again: the override is still there and the poller is dead. *)
Lemma reopened_session_witness :
  let u := snd (SensapexDevice_init 1 None (Some 2) watched_session) in
  let u' := snd (open (fake_lib true) None None (snd (close (fake_lib true) u))) in
  alive (poller u) = true
  /\ axis_count (fake_lib true) 1 u' = (Return 2, u')
  /\ alive (poller u') = false.
Proof.
  intros u u'.
  assert (Hopen : open (fake_lib true) None None (snd (close (fake_lib true) u))
                  = (Return tt, u')) by (vm_compute; reflexivity).
  destruct (reopened_session (fake_lib true) None None u u' Hopen)
    as (_ & _ & Hcount & _ & Hdead).
  split; [vm_compute; reflexivity |].
  split; [apply Hcount; vm_compute; reflexivity | exact Hdead].
Defined.

(** ** What [get_pos] returns and what [list_devices] probes *)

Section ProbeFacts.
Context {St : Type} (L : Lib St).

(** What a [call] does to the handle, the flag and the record of calls. *)
Lemma call_calls (fn : string) (args : list Z) (u : UMP St) :
  h (snd (call L fn args u)) = h u
  /\ _ump_has_axis_count (snd (call L fn args u)) = _ump_has_axis_count u
  /\ transport_calls (snd (call L fn args u))
     = transport_calls u ++ match h u with Some _ => [(fn, args)] | None => [] end.
Proof.
  destruct (call L fn args u) as [r u'] eqn:Hcall.
  apply call_inv in Hcall as [(Hh & -> & _) | (hd & Hh & -> & _)]; simpl; rewrite Hh.
  - now rewrite app_nil_r.
  - auto.
Qed.

(** [c_int] keeps what fits a C [int]. *)
Lemma c_int_small (n : Z) : - 2 ^ 31 <= n < 2 ^ 31 -> c_int n = n.
Proof. intros Hn. unfold c_int. rewrite Z.mod_small; lia. Qed.

(** A position that [get_pos] returns is the five cells the library filled,
    cut to the axis count, and the axis count is the one the next query
    returns. *)
Lemma get_pos_inv (dev : Z) (timeout : option Z) (u u' : UMP St) (pos : list Z) :
  get_pos L dev timeout u = (Return pos, u') ->
  exists hd n,
    h u = Some hd
    /\ axis_count L dev u' = (Return n, u')
    /\ pos = py_slice_to n
               (cells (snd (fst (lib_fn L "ump_get_positions_ext" hd
                                   [c_int dev;
                                    c_int match timeout with
                                          | Some t => t
                                          | None => _timeout u
                                          end]
                                   (lib_st u)))))
    /\ (_ump_has_axis_count u = false -> n = 4).
Proof.
  unfold get_pos, bind.
  match goal with |- context [call L ?fn ?args u] =>
    destruct (call L fn args u) as [[r | e] u1] eqn:Hcall; [| discriminate];
    pose proof (call_calls fn args u) as (_ & Hflag & _); rewrite Hcall in Hflag;
    apply call_inv in Hcall as [(_ & _ & Hr) | (hd & Hh & _ & [(e & Hr & _) | (Hr & _)])];
      try discriminate Hr
  end.
  injection Hr as ->. simpl in Hflag.
  destruct (axis_count L dev u1) as [[n | e] u2] eqn:Haxis; [| discriminate].
  intros [= <- <-]. exists hd, n.
  split; [exact Hh |]. split; [now apply (axis_count_inv L dev n u1 u2) |].
  split; [reflexivity |].
  intros Hno. unfold axis_count in Haxis. rewrite Hflag, Hno in Haxis.
  simpl in Haxis. congruence.
Qed.

Lemma length_py_slice_to_any (n : Z) (outs : list Z) :
  length (py_slice_to n (cells outs))
  = Z.to_nat (Z.min 5 (if 0 <=? n then n else 5 + n)).
Proof.
  unfold py_slice_to.
  destruct (0 <=? n) eqn:Hle; rewrite length_firstn, length_cells; lia.
Qed.

(** [get_pos] returns a prefix of the five cells the library filled when
    it was asked for the position with the given time limit (the stored
    timeout for [timeout=None]): as many values as the axis count [n],
    never more than five; a negative count [n] drops the last [-n] cells
    instead.  With a library that lacks [ump_get_axis_count_ext] there are
    always four values, whatever the cache of axis counts holds. *)
Theorem get_pos_shape (dev : Z) (timeout : option Z) (u u' : UMP St) (pos : list Z) :
  get_pos L dev timeout u = (Return pos, u') ->
  exists hd n,
    h u = Some hd
    /\ axis_count L dev u' = (Return n, u')
    /\ pos = firstn (length pos)
               (cells (snd (fst (lib_fn L "ump_get_positions_ext" hd
                                   [c_int dev;
                                    c_int match timeout with
                                          | Some t => t
                                          | None => _timeout u
                                          end]
                                   (lib_st u)))))
    /\ length pos = Z.to_nat (Z.min 5 (if 0 <=? n then n else 5 + n))
    /\ (_ump_has_axis_count u = false -> length pos = 4%nat).
Proof.
  intros Hpos. apply get_pos_inv in Hpos as (hd & n & Hh & Haxis & -> & Hfour).
  exists hd, n. split; [exact Hh |]. split; [exact Haxis |].
  split.
  - unfold py_slice_to.
    destruct (0 <=? n);
      match goal with |- firstn ?k ?t = _ =>
        rewrite length_firstn; destruct (Nat.le_ge_cases k (length t)) as [Hk | Hk];
        [rewrite Nat.min_l by exact Hk; reflexivity
        | rewrite Nat.min_r by exact Hk; rewrite firstn_all; now apply firstn_all2]
      end.
  - split; [apply length_py_slice_to_any |].
    intros Hno. rewrite (Hfour Hno). apply length_py_slice_to_any.
Qed.

(** [set_timeout] returns only on an open session, and only adds to the
    record of calls. *)
Lemma set_timeout_keeps_calls (t : Z) (u : UMP St) :
  (fst (set_timeout L t u) = Return tt -> h (snd (set_timeout L t u)) <> None)
  /\ exists extra, transport_calls (snd (set_timeout L t u)) = transport_calls u ++ extra.
Proof.
  unfold set_timeout, bind.
  pose proof (call_calls "ump_set_timeout" [t] (set__timeout t u)) as (Hh & _ & Hc).
  destruct (call L "ump_set_timeout" [t] (set__timeout t u)) as [[r | e] u1] eqn:Hcall;
    simpl in *.
  - split; [| eauto].
    intros _. apply call_inv in Hcall as [(_ & _ & Hr) | (hd & Hhd & _ & _)];
      [discriminate Hr |]. simpl in Hhd. congruence.
  - split; [discriminate | eauto].
Qed.

(** The probes of the loop: the ids found are among the ids probed and in
    their order, and every id is probed once the loop returns. *)
Lemma list_devices_loop_found (ids devs l : list Z) (u u' : UMP St) :
  h u <> None ->
  list_devices_loop L ids devs u = (Return l, u') ->
  exists found extra,
    l = devs ++ found
    /\ Forall (fun i => In i ids) found
    /\ (StronglySorted Z.lt ids -> StronglySorted Z.lt found)
    /\ transport_calls u' = transport_calls u ++ extra
    /\ forall i, In i ids -> In ("ump_get_positions_ext", [c_int i; 0]) extra.
Proof.
  revert devs l u. induction ids as [| i ids IH]; intros devs l u Hopen; simpl.
  - intros [= <- <-]. exists [], []. rewrite !app_nil_r.
    repeat split; auto; try constructor; contradiction.
  - pose proof (get_pos_queries L i 0 u Hopen) as [e1 Hq].
    pose proof (get_pos_keeps L (fun v => h v <> None)) as Hkeep.
    specialize (Hkeep ltac:(split; intros; simpl; assumption) i (Some 0) u Hopen).
    change (c_int 0) with 0 in Hq.
    destruct (get_pos L i (Some 0) u) as [[p | e] u1]; simpl in Hq, Hkeep.
    + intros Hloop. apply IH in Hloop as (found & e2 & -> & Hin & Hsorted & Hcalls & Hall);
        [| exact Hkeep].
      exists (i :: found), (("ump_get_positions_ext", [c_int i; 0]) :: e1 ++ e2).
      split; [now rewrite <- app_assoc |].
      split; [constructor; [now left |
                eapply List.Forall_impl; [| exact Hin]; intros ? ?; now right] |].
      split.
      { intros Hs. inversion Hs as [| ? ? Hs' Hlt]; subst. constructor; [auto |].
        clear - Hin Hlt. induction Hin as [| x found Hx _ IHf]; constructor; auto.
        rewrite List.Forall_forall in Hlt. now apply Hlt. }
      split; [rewrite Hcalls, Hq, <- app_assoc; reflexivity |].
      intros j [<- | Hj]; [now left |]. right. apply in_or_app. right. now apply Hall.
    + destruct e as [msg errno oserrno | | | |]; try discriminate.
      destruct (bool_decide (errno = Some (-5)) || bool_decide (errno = Some (-6)));
        [| discriminate].
      intros Hloop. apply IH in Hloop as (found & e2 & -> & Hin & Hsorted & Hcalls & Hall);
        [| exact Hkeep].
      exists found, (("ump_get_positions_ext", [c_int i; 0]) :: e1 ++ e2).
      split; [reflexivity |].
      split; [eapply List.Forall_impl; [| exact Hin]; intros ? ?; now right |].
      split; [intros Hs; inversion Hs; subst; auto |].
      split; [rewrite Hcalls, Hq, <- app_assoc; reflexivity |].
      intros j [<- | Hj]; [now left |]. right. apply in_or_app. right. now apply Hall.
Qed.

Lemma py_range_sorted (n : Z) : StronglySorted Z.lt (py_range n).
Proof.
  unfold py_range. generalize (Z.to_nat n) as k, 0%nat as a.
  induction k as [| k IH]; intros a; simpl; constructor; [apply IH |].
  apply List.Forall_forall. intros x Hx.
  apply in_map_iff in Hx as (y & <- & Hy). apply in_seq in Hy. lia.
Qed.

Lemma py_range_In (n i : Z) : In i (py_range n) <-> 0 <= i < n.
Proof.
  unfold py_range. rewrite in_map_iff. split.
  - intros (y & <- & Hy). apply in_seq in Hy. lia.
  - intros Hi. exists (Z.to_nat i). split; [lia |]. apply in_seq. lia.
Qed.

(** When [list_devices] returns, its list is strictly increasing and holds
    only ids from 0 up to [min(max_id, 254)] (so it is empty for
    [max_id <= 0] and never lists device 254 or more), and the library has
    been asked for the cached position of every id of that range, listed or
    not, in calls made after those the record showed before. *)
Theorem list_devices_ids (max_id : Z) (u u' : UMP St) (l : list Z) :
  list_devices L max_id u = (Return l, u') ->
  StronglySorted Z.lt l
  /\ Forall (fun i => 0 <= i < Z.min max_id LIBUMP_MAX_MANIPULATORS) l
  /\ exists extra,
       transport_calls u' = transport_calls u ++ extra
       /\ forall i, 0 <= i < Z.min max_id LIBUMP_MAX_MANIPULATORS ->
                    In ("ump_get_positions_ext", [i; 0]) extra.
Proof.
  unfold list_devices, bind, try_finally.
  pose proof (set_timeout_keeps_calls 20 u) as (Hh1 & e0 & Hc1).
  destruct (set_timeout L 20 u) as [[[] | e] u1]; [| discriminate].
  simpl in Hh1, Hc1. specialize (Hh1 eq_refl).
  destruct (list_devices_loop L _ [] u1) as [r u2] eqn:Hloop.
  pose proof (set_timeout_keeps_calls (_timeout u) u2) as (_ & e3 & Hc3).
  destruct (set_timeout L (_timeout u) u2) as [[[] | e] u3]; [| discriminate].
  intros [= -> <-]. simpl in Hc3.
  apply list_devices_loop_found in Hloop as (found & e2 & -> & Hin & Hsorted & Hcalls & Hall);
    [| exact Hh1].
  simpl. split; [apply Hsorted, py_range_sorted |].
  split.
  - eapply List.Forall_impl; [| exact Hin]. intros i Hi. now apply py_range_In in Hi.
  - exists (e0 ++ e2 ++ e3). split; [rewrite Hc3, Hcalls, Hc1, <- !app_assoc; reflexivity |].
    intros i Hi. apply in_or_app. right. apply in_or_app. left.
    rewrite <- (c_int_small i) at 1 by (unfold LIBUMP_MAX_MANIPULATORS in Hi; lia).
    apply Hall. now apply py_range_In.
Qed.

End ProbeFacts.

(** Device 1 of the overridden session has its count set to 2, but the
    library lacks the axis-count function: four values come back. *)
Lemma get_pos_shape_witness :
  exists pos u',
    get_pos (fake_lib false) 1 (Some 0) (overridden_session false) = (Return pos, u')
    /\ length pos = 4%nat.
Proof.
  eexists _, _. split; [vm_compute; reflexivity |].
  destruct (get_pos_shape (fake_lib false) 1 (Some 0) (overridden_session false) _ _ eq_refl)
    as (hd & n & _ & _ & _ & _ & Hfour).
  apply Hfour. reflexivity.
Defined.

(** Listing the devices of the resting session: only device 1 is there,
    and id 2 has been probed as well. *)
Lemma list_devices_ids_witness :
  list_devices (fake_lib true) 3 (resting_session true)
  = (Return [1], snd (list_devices (fake_lib true) 3 (resting_session true)))
  /\ exists extra,
       transport_calls (snd (list_devices (fake_lib true) 3 (resting_session true)))
       = transport_calls (resting_session true) ++ extra
       /\ In ("ump_get_positions_ext", [2; 0]) extra.
Proof.
  assert (Hrun : list_devices (fake_lib true) 3 (resting_session true)
                 = (Return [1], snd (list_devices (fake_lib true) 3 (resting_session true))))
    by (vm_compute; reflexivity).
  split; [exact Hrun |].
  destruct (list_devices_ids (fake_lib true) 3 _ _ _ Hrun) as (_ & _ & extra & Hcalls & Hall).
  exists extra. split; [exact Hcalls |].
  apply Hall. unfold LIBUMP_MAX_MANIPULATORS. lia.
Defined.

(** ** The move request of [goto_pos] *)

Section GotoFacts.
Context {St : Type} (L : Lib St).

Lemma axis_count_calls (dev : Z) (u : UMP St) :
  exists l,
    transport_calls (snd (axis_count L dev u)) = transport_calls u ++ l
    /\ Forall (fun c => fst c <> "ump_goto_position_ext2") l.
Proof.
  unfold axis_count.
  destruct (_ump_has_axis_count u); simpl;
    [| exists []; now rewrite app_nil_r].
  destruct (_axis_counts u !! dev); simpl; [exists []; now rewrite app_nil_r |].
  unfold bind.
  pose proof (call_calls L "ump_get_axis_count_ext" [dev] u) as (_ & _ & Hc).
  destruct (call L "ump_get_axis_count_ext" [dev] u) as [[rc | e] u1]; simpl in *;
    (eexists; split; [exact Hc |]);
    destruct (h u); repeat constructor; discriminate.
Qed.

Lemma get_pos_calls (dev : Z) (timeout : option Z) (u : UMP St) :
  exists l,
    transport_calls (snd (get_pos L dev timeout u)) = transport_calls u ++ l
    /\ Forall (fun c => fst c <> "ump_goto_position_ext2") l.
Proof.
  unfold get_pos, bind.
  match goal with |- context [call L ?fn ?args u] =>
    pose proof (call_calls L fn args u) as (_ & _ & Hc);
    destruct (call L fn args u) as [[r | e] u1]
  end; simpl in *.
  - pose proof (axis_count_calls dev u1) as (l & Hl & Hquiet).
    destruct (axis_count L dev u1) as [[n | e] u2]; simpl in *;
      (eexists; split; [rewrite Hl, Hc, <- app_assoc; reflexivity |]);
      (apply Forall_app; split; [| exact Hquiet]);
      destruct (h u); repeat constructor; discriminate.
  - eexists; split; [exact Hc |].
    destruct (h u); repeat constructor; discriminate.
Qed.

Lemma is_busy_calls (dev : Z) (u : UMP St) :
  exists l,
    transport_calls (snd (is_busy L dev u)) = transport_calls u ++ l
    /\ Forall (fun c => fst c <> "ump_goto_position_ext2") l.
Proof.
  unfold is_busy, bind.
  pose proof (call_calls L "ump_receive" [10] u) as (Hh & _ & Hc).
  destruct (call L "ump_receive" [10] u) as [[r | e] u1]; simpl in *.
  - pose proof (call_calls L "ump_get_status_ext" [c_int dev] u1) as (_ & _ & Hc').
    destruct (call L "ump_get_status_ext" [c_int dev] u1) as [[r' | e] u2]; simpl in *;
      (eexists; split; [rewrite Hc', Hc, <- app_assoc; reflexivity |]);
      rewrite Hh; destruct (h u); repeat constructor; discriminate.
  - eexists; split; [exact Hc |].
    destruct (h u); repeat constructor; discriminate.
Qed.

Lemma wait_idle_calls (fuel : nat) (dev : Z) (u u' : UMP St) (r : outcome unit) :
  wait_idle L fuel dev u = Some (r, u') ->
  exists l,
    transport_calls u' = transport_calls u ++ l
    /\ Forall (fun c => fst c <> "ump_goto_position_ext2") l.
Proof.
  revert u; induction fuel as [| fuel IH]; intros u; simpl; [discriminate |].
  pose proof (is_busy_calls dev u) as (l & Hl & Hquiet).
  destruct (is_busy L dev u) as [[[] | e] u1]; simpl in *.
  - intros Hwait. apply IH in Hwait as (l' & Hl' & Hquiet').
    exists (l ++ l'). split; [rewrite Hl', Hl, <- app_assoc; reflexivity |].
    now apply Forall_app.
  - intros [= <- <-]. eauto.
  - intros [= <- <-]. eauto.
Qed.

Lemma int_all_length (xs : list float) (zs : list Z) :
  int_all xs = Some zs -> length zs = length xs.
Proof.
  revert zs; induction xs as [| x xs IH]; intros zs; simpl.
  - now intros [= <-].
  - destruct (py_int x); [| discriminate].
    destruct (int_all xs) as [zs' |]; [| discriminate].
    intros [= <-]. simpl. now rewrite (IH zs').
Qed.

Lemma length_planner (pos cur : list Z) (speed : float) (fs : list float) :
  planner pos speed cur = Some fs ->
  length fs = Nat.max 4 (Nat.min (length pos) (length cur)).
Proof.
  unfold planner. destruct (planner_diff pos cur) as [diff |] eqn:Hdiff; [| discriminate].
  intros [= <-]. unfold planner_speed.
  now rewrite length_pad4, length_map, (planner_diff_length _ _ _ Hdiff).
Qed.

(** Without [block] the method always returns or raises: there is no loop
    on its way, and [fuel] plays no part. *)
Lemma goto_pos_returns (fuel : nat) (dev : Z) (pos : list Z) (speed : float)
    (simultaneous : bool) (u : UMP St) :
  exists r u',
    forall fuel', goto_pos L fuel' dev pos speed false simultaneous u = Some (r, u').
Proof.
  unfold goto_pos.
  destruct (get_pos L dev (Some 0) u) as [current_pos u1].
  match goal with |- context [match ?a with Some _ => _ | None => Some (Raise _, _) end] =>
    destruct a as [args |]
  end; [| eauto].
  destruct (bind (call L "ump_goto_position_ext2" args)
              (fun _ => call L "ump_receive" [1]) u1) as [[r2 | e] u2]; eauto.
Qed.

(** With [block] the method is the call without it, followed by the wait
    and the read-back. *)
Lemma goto_pos_blocking (fuel fuel' : nat) (dev : Z) (pos : list Z) (speed : float)
    (simultaneous : bool) (u : UMP St) :
  goto_pos L fuel' dev pos speed true simultaneous u
  = match goto_pos L fuel dev pos speed false simultaneous u with
    | Some (Return _, u2) =>
        match wait_idle L fuel' dev u2 with
        | None => None
        | Some (Raise e, u3) => Some (Raise e, u3)
        | Some (Return _, u3) =>
            match get_pos L dev (Some 0) u3 with
            | (Raise e, u4) => Some (Raise e, u4)
            | (Return pos2, u4) =>
                if broadcastable (length pos2) (length (firstn 3 (pad4 0 pos)))
                then Some (Return tt, u4)
                else Some (Raise (ValueError "operands could not be broadcast together"), u4)
            end
        end
    | other => other
    end.
Proof.
  unfold goto_pos.
  destruct (get_pos L dev (Some 0) u) as [current_pos u1].
  match goal with |- context [match ?a with Some _ => _ | None => Some (Raise _, _) end] =>
    destruct a as [args |]
  end; [| reflexivity].
  destruct (bind (call L "ump_goto_position_ext2" args)
              (fun _ => call L "ump_receive" [1]) u1) as [[r2 | e] u2]; reflexivity.
Qed.

(** The request that a call which has ended has made, whatever [block]
    is. *)
Lemma goto_pos_request_made (fuel : nat) (dev : Z) (pos : list Z) (speed : float)
    (block simultaneous : bool) (s : Z) (u u' : UMP St) (r : outcome unit) :
  h u <> None ->
  py_int (py_max 1%float speed) = Some s ->
  goto_pos L fuel dev pos speed block simultaneous u = Some (r, u') ->
  let speeds :=
    match fst (get_pos L dev (Some 0) u) with
    | Return current_pos =>
        match planner (pad4 0 pos) (py_max 1%float speed) current_pos with
        | Some fs =>
            match int_all fs with
            | Some speeds => speeds
            | None => [s; s; s; s]
            end
        | None => [s; s; s; s]
        end
    | Raise _ => [s; s; s; s]
    end in
  exists before after,
    transport_calls u'
    = transport_calls u
      ++ before
      ++ ("ump_goto_position_ext2",
          map c_int (dev :: pad4 0 pos ++ speeds ++ [if simultaneous then 1 else 0]))
         :: after
    /\ Forall (fun c => fst c <> "ump_goto_position_ext2") before
    /\ Forall (fun c => fst c <> "ump_goto_position_ext2") after.
Proof.
  intros Hopen Hs Hgo. unfold goto_pos in Hgo. rewrite Hs in Hgo.
  pose proof (get_pos_calls dev (Some 0) u) as (before & Hbefore & Hquiet).
  pose proof (get_pos_keeps L (fun v => h v <> None)
                ltac:(split; intros; simpl; assumption) dev (Some 0) u Hopen) as Hopen1.
  destruct (get_pos L dev (Some 0) u) as [current_pos u1]; simpl in Hbefore, Hopen1.
  simpl fst. intros speeds.
  assert (Hargs : match current_pos with
                  | Return current_pos =>
                      match planner (pad4 0 pos) (py_max 1%float speed) current_pos with
                      | Some fs =>
                          match int_all fs with
                          | Some speeds =>
                              Some (map c_int ([dev] ++ pad4 0 pos ++ speeds
                                                 ++ [if simultaneous then 1 else 0]))
                          | None =>
                              Some (map c_int ([dev] ++ pad4 0 pos ++ [s; s; s; s;
                                                       if simultaneous then 1 else 0]))
                          end
                      | None =>
                          Some (map c_int ([dev] ++ pad4 0 pos ++ [s; s; s; s;
                                                   if simultaneous then 1 else 0]))
                      end
                  | Raise _ =>
                      Some (map c_int ([dev] ++ pad4 0 pos ++ [s; s; s; s;
                                               if simultaneous then 1 else 0]))
                  end
                  = Some (map c_int (dev :: pad4 0 pos ++ speeds
                                       ++ [if simultaneous then 1 else 0]))).
  { subst speeds. destruct current_pos as [c | e]; [| reflexivity].
    destruct (planner _ _ _) as [fs |]; [| reflexivity].
    destruct (int_all fs); reflexivity. }
  rewrite Hargs in Hgo. clear Hargs.
  set (args := map c_int (dev :: pad4 0 pos ++ speeds ++ [if simultaneous then 1 else 0]))
    in *.
  exists before.
  unfold bind in Hgo.
  pose proof (call_calls L "ump_goto_position_ext2" args u1) as (Hh2 & _ & Hc2).
  destruct (h u1) as [hd |] eqn:Hhd; [| contradiction].
  destruct (call L "ump_goto_position_ext2" args u1) as [[r2 | e] u2]; simpl in Hh2, Hc2.
  2: { injection Hgo as <- <-. exists []. rewrite Hc2, Hbefore, <- app_assoc.
       repeat split; auto. }
  pose proof (call_calls L "ump_receive" [1] u2) as (Hh3 & _ & Hc3).
  rewrite Hh2 in Hc3.
  destruct (call L "ump_receive" [1] u2) as [[r3 | e] u3]; simpl in Hh3, Hc3.
  2: { injection Hgo as <- <-. exists [("ump_receive", [1])].
       rewrite Hc3, Hc2, Hbefore, <- !app_assoc.
       repeat split; auto; try (constructor; [discriminate | try apply Forall_app; auto]). }
  destruct block.
  2: { injection Hgo as <- <-. exists [("ump_receive", [1])].
       rewrite Hc3, Hc2, Hbefore, <- !app_assoc.
       repeat split; auto; try (constructor; [discriminate | try apply Forall_app; auto]). }
  destruct (wait_idle L fuel dev u3) as [[rw u4] |] eqn:Hwait; [| discriminate].
  apply wait_idle_calls in Hwait as (l4 & Hl4 & Hquiet4).
  destruct rw as [[] | e].
  2: { injection Hgo as <- <-. exists (("ump_receive", [1]) :: l4).
       rewrite Hl4, Hc3, Hc2, Hbefore, <- !app_assoc.
       repeat split; auto; try (constructor; [discriminate | try apply Forall_app; auto]). }
  pose proof (get_pos_calls dev (Some 0) u4) as (l5 & Hl5 & Hquiet5).
  destruct (get_pos L dev (Some 0) u4) as [[pos2 | e] u5]; simpl in Hl5.
  2: { injection Hgo as <- <-. exists (("ump_receive", [1]) :: l4 ++ l5).
       rewrite Hl5, Hl4, Hc3, Hc2, Hbefore, <- !app_assoc.
       repeat split; auto; try (constructor; [discriminate | try apply Forall_app; auto]). }
  destruct (broadcastable _ _); injection Hgo as <- <-;
    exists (("ump_receive", [1]) :: l4 ++ l5);
    rewrite Hl5, Hl4, Hc3, Hc2, Hbefore, <- !app_assoc;
    repeat split; auto; try (constructor; [discriminate | try apply Forall_app; auto]).
Qed.

(** On an open session and for a speed that [int] accepts, [goto_pos]
    makes exactly one move request.  Without [block] it always ends, and
    the record of calls then shows one [ump_goto_position_ext2], with the
    device, the target padded with zeros to four coordinates, four speeds
    and the mode: ten integers for a target of at most four coordinates.
    The speeds are the planner's when the position could be read, every
    [float(p-c)] exists and every speed converts; otherwise the failure is
    swallowed and the request goes out all the same, with the nominal speed
    (at least 1) on all four axes.  With [block] the call is the same
    request followed by the wait: it fails to end only when the request was
    made and the wait goes on, and when it ends the record shows the same
    single request. *)
Theorem goto_pos_request (fuel : nat) (dev : Z) (pos : list Z) (speed : float)
    (simultaneous : bool) (s : Z) (u : UMP St) :
  (length pos <= 4)%nat ->
  h u <> None ->
  py_int (py_max 1%float speed) = Some s ->
  let speeds :=
    match fst (get_pos L dev (Some 0) u) with
    | Return current_pos =>
        match planner (pad4 0 pos) (py_max 1%float speed) current_pos with
        | Some fs =>
            match int_all fs with
            | Some speeds => speeds
            | None => [s; s; s; s]
            end
        | None => [s; s; s; s]
        end
    | Raise _ => [s; s; s; s]
    end in
  let request :=
    ("ump_goto_position_ext2",
     map c_int (dev :: pad4 0 pos ++ speeds ++ [if simultaneous then 1 else 0])) in
  length speeds = 4%nat
  /\ length (snd request) = 10%nat
  /\ exists r u',
       goto_pos L fuel dev pos speed false simultaneous u = Some (r, u')
       /\ (exists before after,
             transport_calls u' = transport_calls u ++ before ++ request :: after
             /\ Forall (fun c => fst c <> "ump_goto_position_ext2") before
             /\ Forall (fun c => fst c <> "ump_goto_position_ext2") after)
       /\ (forall fuel',
             goto_pos L fuel' dev pos speed true simultaneous u = None
             <-> r = Return tt /\ wait_idle L fuel' dev u' = None)
       /\ (forall fuel' r'' u'',
             goto_pos L fuel' dev pos speed true simultaneous u = Some (r'', u'') ->
             exists before after,
               transport_calls u'' = transport_calls u ++ before ++ request :: after
               /\ Forall (fun c => fst c <> "ump_goto_position_ext2") before
               /\ Forall (fun c => fst c <> "ump_goto_position_ext2") after).
Proof.
  intros Hlen Hopen Hs speeds request.
  assert (Hfour : length speeds = 4%nat).
  { subst speeds. destruct (fst (get_pos L dev (Some 0) u)) as [c | e]; [| reflexivity].
    destruct (planner _ _ _) as [fs |] eqn:Hfs; [| reflexivity].
    destruct (int_all fs) as [v |] eqn:Hv; [| reflexivity].
    apply int_all_length in Hv. apply length_planner in Hfs.
    rewrite Hv, Hfs, length_pad4. lia. }
  split; [exact Hfour |].
  split.
  { subst request. simpl. rewrite length_map, !length_app, length_pad4, Hfour. simpl. lia. }
  destruct (goto_pos_returns fuel dev pos speed simultaneous u) as (r & u' & Hgo).
  exists r, u'. split; [apply Hgo |].
  split; [exact (goto_pos_request_made _ _ _ _ _ _ _ _ _ _ Hopen Hs (Hgo fuel)) |].
  split.
  - intros fuel'. rewrite (goto_pos_blocking fuel fuel'), (Hgo fuel).
    destruct r as [[] | e]; [| split; [discriminate | intros [[=] _]]].
    destruct (wait_idle L fuel' dev u') as [[[[] | e] u3] |];
      [| split; [discriminate | intros [_ [=]]] | tauto].
    destruct (get_pos L dev (Some 0) u3) as [[pos2 | e] u4];
      [destruct (broadcastable _ _) |];
      (split; [discriminate | intros [_ [=]]]).
  - intros fuel' r'' u'' Hblock.
    exact (goto_pos_request_made _ _ _ _ _ _ _ _ _ _ Hopen Hs Hblock).
Qed.

(** With [block=True] the method ends on [pos2 - np.array(pos[:3])], which
    numpy refuses unless the position read back has three entries or one.
    So a blocking [goto_pos] returns normally only for a device whose axis
    count is 3 or 1 (or -2 or -4, which cut the five cells to as many), and
    never with a library that lacks [ump_get_axis_count_ext], where every
    position has four entries; when it ends in the [ValueError] the move
    request has been sent. *)
Theorem blocking_goto_pos_returns (fuel : nat) (dev : Z) (pos : list Z) (speed : float)
    (simultaneous : bool) (u u' : UMP St) (r : outcome unit) :
  goto_pos L fuel dev pos speed true simultaneous u = Some (r, u') ->
  (r = Return tt ->
   _ump_has_axis_count u = true
   /\ exists n, axis_count L dev u' = (Return n, u')
                /\ (n = 3 \/ n = 1 \/ n = -2 \/ n = -4))
  /\ (forall msg, r = Raise (ValueError msg) ->
        exists args, In ("ump_goto_position_ext2", args) (transport_calls u')).
Proof.
  intros Hgo.
  pose proof (goto_pos_keeps L (fun v => _ump_has_axis_count v = _ump_has_axis_count u)
                ltac:(split; intros; simpl; assumption) _ _ _ _ _ _ _ _ _ Hgo eq_refl)
    as Hflag.
  unfold goto_pos in Hgo.
  destruct (get_pos L dev (Some 0) u) as [current_pos u1].
  match type of Hgo with (match ?a with _ => _ end) = _ => destruct a as [args |] end.
  2: { injection Hgo as <- <-. split; [discriminate | intros msg; discriminate]. }
  unfold bind in Hgo.
  assert (Hframe : frame (fun w : UMP St =>
                            In ("ump_goto_position_ext2", args) (transport_calls w)))
    by (split; intros; simpl; try assumption; apply in_or_app; now left).
  pose proof (call_inv L "ump_goto_position_ext2" args u1) as Hsent.
  destruct (call L "ump_goto_position_ext2" args u1) as [[r2 | e] u2].
  2: { specialize (Hsent _ _ eq_refl) as [(_ & _ & [= ->]) | (hd & _ & -> & _)];
       injection Hgo as <- <-; (split; [discriminate | intros msg Hmsg]).
       - discriminate Hmsg.
       - exists args. simpl. apply in_or_app. right. now left. }
  specialize (Hsent _ _ eq_refl) as [(_ & _ & [=]) | (hd & _ & -> & _)].
  match type of Hgo with context [call L "ump_receive" [1] ?v] =>
    pose proof (call_keeps L _ Hframe "ump_receive" [1] v ltac:(discriminate)
                  ltac:(simpl; apply in_or_app; right; now left)) as H3;
    destruct (call L "ump_receive" [1] v) as [[r3 | e] u3]
  end; simpl in H3.
  2: { injection Hgo as <- <-. split; [discriminate | eauto]. }
  destruct (wait_idle L fuel dev u3) as [[[[] | e] u4] |] eqn:Hwait; try discriminate.
  2: { injection Hgo as <- <-. split; [discriminate | intros msg Hmsg].
       exists args. exact (wait_idle_keeps L _ Hframe _ _ _ _ _ Hwait H3). }
  pose proof (wait_idle_keeps L _ Hframe _ _ _ _ _ Hwait H3) as H4.
  pose proof (get_pos_keeps L _ Hframe dev (Some 0) u4 H4) as H5.
  pose proof (get_pos_keeps L (fun v => _ump_has_axis_count v = _ump_has_axis_count u4)
                ltac:(split; intros; simpl; assumption) dev (Some 0) u4 eq_refl) as Hflag4.
  destruct (get_pos L dev (Some 0) u4) as [[pos2 | e] u5] eqn:Hpos2; simpl in H5, Hflag4.
  2: { injection Hgo as <- <-. split; [discriminate | eauto]. }
  apply get_pos_inv in Hpos2 as (hd4 & n & _ & Haxis & -> & Hfour).
  assert (Hthree : length (firstn 3 (pad4 0 pos)) = 3%nat)
    by (rewrite length_firstn, length_pad4; lia).
  rewrite Hthree, length_py_slice_to_any in Hgo. unfold broadcastable in Hgo.
  destruct (_ =? 3)%nat eqn:H3'; [| destruct (_ =? 1)%nat eqn:H1'];
    simpl in Hgo; injection Hgo as <- <-.
  - split; [intros _ | intros msg; discriminate].
    apply Nat.eqb_eq in H3'.
    assert (Hn : n = 3 \/ n = -2) by (destruct (0 <=? n) eqn:Hle; lia).
    split; [| exists n; split; [exact Haxis | tauto]].
    destruct (_ump_has_axis_count u4) eqn:Hf; [congruence |].
    specialize (Hfour eq_refl). lia.
  - split; [intros _ | intros msg; discriminate].
    apply Nat.eqb_eq in H1'.
    assert (Hn : n = 1 \/ n = -4) by (destruct (0 <=? n) eqn:Hle; lia).
    split; [| exists n; split; [exact Haxis | tauto]].
    destruct (_ump_has_axis_count u4) eqn:Hf; [congruence |].
    specialize (Hfour eq_refl). lia.
  - split; [discriminate | eauto].
Qed.

(** C4, as the code has it.  The planner works in binary64, divides before
    it multiplies, and what it sends is truncated by [int] and wrapped to a
    C [int].  For a position [c] that [get_pos] returned and a target [p]
    whose every [float(p[i] - c[i])] exists: [diff[i] = float(p[i] - c[i])]
    on the axes that the padded target and the position share, a coordinate
    the target leaves out counting as 0; with
    [dist = max(1, norm(diff))] the speed list is
    [max(32, max(1, s) * abs(diff[i] / dist))] for each [diff[i]], padded
    with zeros to four entries; an axis whose target equals its position
    gets 32, for every float speed; when every speed converts, [goto_pos]
    hands the library exactly these, truncated, in its one move request;
    and a null move gives 32 on every axis of the device. *)
Theorem goto_speeds_formula (fuel : nat) (dev : Z) (p c : list Z) (s : float)
    (simultaneous : bool) (u u1 : UMP St) (diff : list float) :
  get_pos L dev (Some 0) u = (Return c, u1) ->
  planner_diff (pad4 0 p) c = Some diff ->
  let dist := py_max 1%float (norm diff) in
  let speed :=
    pad4 0%float
      (map (fun d => py_max 32%float (py_max 1%float s * PrimFloat.abs (d / dist))%float)
         diff) in
  length diff = Nat.min (Nat.max 4 (length p)) (length c)
  /\ (forall i, (i < length diff)%nat ->
        float_of_Z (nth i p 0 - nth i c 0) = Some (nth i diff 0%float))
  /\ goto_speeds p s c = Some speed
  /\ length speed = Nat.max 4 (length diff)
  /\ (forall i, (i < length diff)%nat -> nth i p 0 = nth i c 0 ->
        nth_error speed i = Some 32%float)
  /\ (forall zs, int_all speed = Some zs ->
        exists r u' rest,
          goto_pos L fuel dev p s false simultaneous u = Some (r, u')
          /\ transport_calls u'
             = transport_calls u1
               ++ ("ump_goto_position_ext2",
                   map c_int (dev :: pad4 0 p ++ zs ++ [if simultaneous then 1 else 0]))
                  :: rest
          /\ (rest = [] \/ rest = [("ump_receive", [1])]))
  /\ goto_speeds c s c = Some (pad4 0%float (repeat 32%float (length c))).
Proof.
  intros Hget Hdiff dist speed.
  assert (Hlen : length diff = Nat.min (Nat.max 4 (length p)) (length c))
    by now rewrite (planner_diff_length _ _ _ Hdiff), length_pad4.
  assert (Hspeeds : goto_speeds p s c = Some speed)
    by (unfold goto_speeds, planner; now rewrite Hdiff).
  split; [exact Hlen |].
  split; [intros i Hi; now apply planner_diff_nth |].
  split; [exact Hspeeds |].
  split; [subst speed; now rewrite length_pad4, length_map |].
  split; [| split].
  - intros i Hi Hsame.
    pose proof (planner_diff_nth p c diff i Hdiff Hi) as Hnth.
    rewrite Hsame, Z.sub_diag, float_of_Z_0 in Hnth.
    apply (f_equal (fun o => match o with Some d => d | None => 0%float end)) in Hnth.
    simpl in Hnth.
    subst speed. rewrite nth_error_pad4 by now rewrite length_map.
    rewrite nth_error_map, (nth_error_nth' diff 0%float Hi), <- Hnth. simpl. f_equal.
    now apply (floor_on_zero_binary64 _ _ 0%float false).
  - intros zs Hzs.
    destruct (goto_pos_returns fuel dev p s simultaneous u) as (r & u' & Hgo).
    specialize (Hgo fuel). exists r, u'.
    pose proof Hgo as Hrun. unfold goto_pos in Hrun. rewrite Hget in Hrun.
    unfold goto_speeds in Hspeeds. rewrite Hspeeds, Hzs in Hrun.
    assert (Hopen1 : h u1 <> None).
    { pose proof (get_pos_keeps L (fun v => h v <> None)
                    ltac:(split; intros; simpl; assumption) dev (Some 0) u) as Hkeep.
      rewrite Hget in Hkeep. apply Hkeep.
      apply get_pos_inv in Hget as (hd & n & Hh & _). congruence. }
    unfold bind in Hrun.
    match type of Hrun with context [call L "ump_goto_position_ext2" ?a u1] =>
      pose proof (call_calls L "ump_goto_position_ext2" a u1) as (Hh2 & _ & Hc2);
      destruct (h u1) as [hd |] eqn:Hhd; [| contradiction];
      destruct (call L "ump_goto_position_ext2" a u1) as [[r2 | e] u2]
    end; simpl in Hh2, Hc2.
    + pose proof (call_calls L "ump_receive" [1] u2) as (_ & _ & Hc3).
      rewrite Hh2 in Hc3.
      destruct (call L "ump_receive" [1] u2) as [[r3 | e] u3]; simpl in Hc3;
        injection Hrun as <- <-; exists [("ump_receive", [1])];
        (split; [exact Hgo |]); (split; [| now right]);
        rewrite Hc3, Hc2, <- app_assoc; reflexivity.
    + injection Hrun as <- <-. exists [].
      split; [exact Hgo |]. split; [exact Hc2 | now left].
  - unfold goto_speeds, planner. rewrite planner_diff_null. unfold planner_speed.
    rewrite map_repeat.
    now rewrite (floor_on_zero_binary64 _ _ 0%float false).
Qed.

End GotoFacts.

(** A move of device 1 from the origin to (65, 72, 0) at speed 291: the
    distance is 97 and the request carries the speeds 194, 216 and 32. *)
Lemma goto_speeds_formula_witness :
  exists r u' rest,
    goto_pos (fake_lib true) 0 1 [65; 72; 0] 291%float false true origin_session
    = Some (r, u')
    /\ transport_calls u'
       = transport_calls (snd (get_pos (fake_lib true) 1 (Some 0) origin_session))
         ++ ("ump_goto_position_ext2", [1; 65; 72; 0; 0; 194; 216; 32; 0; 1]) :: rest.
Proof.
  pose proof (goto_speeds_formula (fake_lib true) 0 1 [65; 72; 0] [0; 0; 0] 291%float true
                origin_session
                (snd (get_pos (fake_lib true) 1 (Some 0) origin_session))
                [65; 72; 0]%float
                ltac:(vm_compute; reflexivity) ltac:(vm_compute; reflexivity)) as H.
  cbv zeta in H. destruct H as (_ & _ & _ & _ & _ & Hsend & _).
  destruct (Hsend [194; 216; 32; 0] ltac:(vm_compute; reflexivity))
    as (r & u' & rest & Hgo & Hcalls & _).
  exists r, u', rest. split; [exact Hgo | exact Hcalls].
Defined.

(** The speeds are not those of the specification's formula.  For the
    same move the formula gives [291 * 65 / 97 = 195] on the first axis,
    over the real numbers and also when it is evaluated in binary64 in the
    order in which it is written; the code divides first, gets
    194.99999999999997, and sends 194. *)
Lemma goto_speeds_not_the_formula :
  calls_of (goto_pos (fake_lib true) 0 1 [65; 72; 0] 291%float false true origin_session)
  = [("ump_get_positions_ext", [1; 0]);
     ("ump_get_axis_count_ext", [1]);
     ("ump_goto_position_ext2", [1; 65; 72; 0; 0; 194; 216; 32; 0; 1]);
     ("ump_receive", [1])]
  /\ spec_goto_speeds [65; 72; 0] 291 [0; 0; 0] = [195; 216; 32; 0]%R
  /\ (291 * PrimFloat.abs 65 / py_max 1 (norm [65; 72; 0]))%float = 195%float.
Proof.
  split; [vm_compute; reflexivity |].
  split; [| vm_compute; reflexivity].
  unfold spec_goto_speeds.
  change (spec_diff [65; 72; 0] [0; 0; 0]) with [65; 72; 0]%R.
  cbv zeta. rewrite euclideanNorm_65_72. rewrite (Rmax_right 1 97) by lra.
  unfold pad4, spec_speed; simpl.
  rewrite Rabs_R0, !Rabs_pos_eq by lra.
  replace (291 * 65 / 97)%R with 195%R by lra.
  replace (291 * 72 / 97)%R with 216%R by lra.
  replace (291 * 0 / 97)%R with 0%R by lra.
  rewrite !Rmax_right by lra. rewrite Rmax_left by lra. reflexivity.
Qed.

(** A move of device 1 of the resting session from (10, 20, 30) to
    (110, 20, 30) at speed 100: the request carries the speeds 100, 32, 32
    and the padding 0. *)
Lemma goto_pos_request_witness :
  exists r u' before after,
    goto_pos (fake_lib true) 5 1 [110; 20; 30] 100%float false true (resting_session true)
    = Some (r, u')
    /\ transport_calls u'
       = transport_calls (resting_session true)
         ++ before
         ++ ("ump_goto_position_ext2", [1; 110; 20; 30; 0; 100; 32; 32; 0; 1]) :: after.
Proof.
  pose proof (goto_pos_request (fake_lib true) 5 1 [110; 20; 30] 100%float true 100
                (resting_session true)
                ltac:(simpl; lia) ltac:(vm_compute; discriminate)
                ltac:(vm_compute; reflexivity)) as H.
  cbv zeta in H.
  destruct H as (_ & _ & r & u' & Hgo & (before & after & Hcalls & _) & _).
  exists r, u', before, after. split; [exact Hgo |].
  rewrite Hcalls.
  match goal with |- context [map c_int ?l] =>
    replace (map c_int l) with [1; 110; 20; 30; 0; 100; 32; 32; 0; 1]
      by (vm_compute; reflexivity)
  end.
  reflexivity.
Defined.

(** The same move with [block=True]: device 1 has three axes, so the
    method returns. *)
Lemma blocking_goto_pos_returns_witness :
  exists n,
    axis_count (fake_lib true) 1
      (state_after (resting_session true)
         (goto_pos (fake_lib true) 5 1 [110; 20; 30] 100%float true true
            (resting_session true)))
    = (Return n,
       state_after (resting_session true)
         (goto_pos (fake_lib true) 5 1 [110; 20; 30] 100%float true true
            (resting_session true)))
    /\ (n = 3 \/ n = 1 \/ n = -2 \/ n = -4).
Proof.
  assert (Hrun : goto_pos (fake_lib true) 5 1 [110; 20; 30] 100%float true true
                   (resting_session true)
                 = Some (Return tt,
                         state_after (resting_session true)
                           (goto_pos (fake_lib true) 5 1 [110; 20; 30] 100%float true true
                              (resting_session true))))
    by (vm_compute; reflexivity).
  destruct (proj1 (blocking_goto_pos_returns (fake_lib true) 5 1 [110; 20; 30] 100%float
                     true (resting_session true) _ _ Hrun) eq_refl)
    as (_ & n & Haxis & Hn).
  exists n. split; [exact Haxis | exact Hn].
Defined.

(** ** The floor of the planner's speeds *)

Lemma digits2_pos_ge (m : positive) : 2 ^ (Z.pos (digits2_pos m) - 1) <= Z.pos m.
Proof.
  induction m as [m IH | m IH |]; simpl digits2_pos.
  - rewrite Pos2Z.inj_succ.
    replace (Z.succ (Z.pos (digits2_pos m)) - 1) with (Z.succ (Z.pos (digits2_pos m) - 1))
      by lia.
    rewrite Z.pow_succ_r by lia. lia.
  - rewrite Pos2Z.inj_succ.
    replace (Z.succ (Z.pos (digits2_pos m)) - 1) with (Z.succ (Z.pos (digits2_pos m) - 1))
      by lia.
    rewrite Z.pow_succ_r by lia. lia.
  - simpl. lia.
Qed.

(** [int(max(32, x))] is at least 32 for every binary64 [x] it accepts,
    nan, the zeros and the negative numbers included. *)
Lemma py_int_floor (x : float) (z : Z) :
  py_int (py_max 32%float x) = Some z -> 32 <= z.
Proof.
  unfold py_max.
  destruct (32 <? x)%float eqn:Hlt.
  - rewrite ltb_spec in Hlt.
    change (Prim2SF 32) with (S754_finite false 4503599627370496 (-47)) in Hlt.
    pose proof (Prim2SF_valid x) as Hvalid. unfold py_int.
    destruct (Prim2SF x) as [s | s | | s m e]; try discriminate.
    destruct s; [discriminate |].
    unfold valid_binary, bounded, canonical_mantissa, fexp, FloatOps.prec, FloatOps.emax,
      emin in Hvalid.
    apply andb_prop in Hvalid as [Hcanon _]. apply Z.eqb_eq in Hcanon.
    unfold fexp, emin in Hcanon.
    pose proof (digits2_pos_ge m) as Hdigits.
    unfold SFltb, SFcompare in Hlt.
    intros [= <-].
    destruct (Z.compare_spec (-47) e) as [Heq | Hlow | Hhigh]; [subst e | | discriminate].
    + assert (Hm : (4503599627370496 < m)%positive).
      { destruct (Pos.compare_cont Eq 4503599627370496 m) eqn:Hc; try discriminate.
        now apply Pos.compare_lt_iff. }
      simpl. apply Z.div_le_lower_bound; lia.
    + assert (Hd : Z.pos (digits2_pos m) = 53) by lia.
      rewrite Hd in Hdigits. change (2 ^ (53 - 1)) with 4503599627370496 in Hdigits.
      destruct (0 <=? e) eqn:He.
      * apply Z.leb_le in He.
        assert (1 <= 2 ^ e) by (apply (Z.pow_le_mono_r 2 0 e); lia). nia.
      * apply Z.leb_gt in He.
        assert (Hpow : 0 < 2 ^ (- e) <= 2 ^ 46)
          by (split; [apply Z.pow_pos_nonneg; lia | apply Z.pow_le_mono_r; lia]).
        change (2 ^ 46) with 70368744177664 in Hpow.
        apply Z.div_le_lower_bound; lia.
  - vm_compute. intros [= <-]. discriminate.
Qed.

Lemma int_all_app (xs ys : list float) (zs : list Z) :
  int_all (xs ++ ys) = Some zs ->
  exists za zb, zs = za ++ zb /\ int_all xs = Some za /\ int_all ys = Some zb.
Proof.
  revert zs; induction xs as [| x xs IH]; intros zs; simpl.
  - intros Hys. now exists [], zs.
  - destruct (py_int x) as [z |]; [| discriminate].
    destruct (int_all (xs ++ ys)) as [zs' |]; [| discriminate].
    intros [= <-]. destruct (IH zs' eq_refl) as (za & zb & -> & -> & Hb).
    now exists (z :: za), zb.
Qed.

Lemma int_all_zeros (n : nat) : int_all (repeat 0%float n) = Some (repeat 0 n).
Proof.
  induction n as [| n IH]; [reflexivity |].
  cbn [repeat int_all]. rewrite IH.
  replace (py_int 0%float) with (Some 0) by (vm_compute; reflexivity).
  reflexivity.
Qed.

(** The planner never gives an axis of the device an integer speed below
    32, in binary64 as the code computes it and for every float speed: when
    the planner's speeds exist and convert to integers, those of the axes
    that the target and the position read share are at least 32.  The
    entries that pad the list to four are 0, so a device of three axes gets
    speed 0 for the fourth. *)
Theorem planner_floor (pos current_pos : list Z) (speed : float) (fs : list float)
    (speeds : list Z) :
  planner pos speed current_pos = Some fs ->
  int_all fs = Some speeds ->
  exists moving,
    speeds = moving ++ repeat 0 (4 - length moving)
    /\ length moving = Nat.min (length pos) (length current_pos)
    /\ Forall (fun z => 32 <= z) moving.
Proof.
  unfold planner.
  destruct (planner_diff pos current_pos) as [diff |] eqn:Hdiff; [| discriminate].
  intros [= <-]. unfold planner_speed, pad4. intros Hall.
  apply int_all_app in Hall as (moving & zeros & -> & Hmoving & Hzeros).
  rewrite int_all_zeros in Hzeros. injection Hzeros as <-.
  pose proof (int_all_length _ _ Hmoving) as Hlen.
  rewrite length_map in Hlen. exists moving.
  split; [rewrite length_map, <- Hlen; reflexivity |].
  split; [rewrite Hlen; now apply planner_diff_length |].
  clear Hlen Hdiff. revert moving Hmoving.
  generalize (planner_dist diff) as dist.
  intros dist. induction diff as [| d diff IH]; intros moving; simpl.
  - intros [= <-]. constructor.
  - destruct (py_int _) as [z |] eqn:Hz; [| discriminate].
    destruct (int_all _) as [zs |]; [| discriminate].
    intros [= <-]. constructor; [now apply py_int_floor in Hz | now apply IH].
Qed.

(** The move from (10, 20, 30) to (110, 20, 30, 0) at speed 100: three
    speeds of at least 32 and the padding. *)
Lemma planner_floor_witness :
  exists moving,
    [100; 32; 32; 0] = moving ++ repeat 0 (4 - length moving)
    /\ length moving = 3%nat
    /\ Forall (fun z => 32 <= z) moving.
Proof.
  apply (planner_floor [110; 20; 30; 0] [10; 20; 30] 100%float
           [100; 32; 32; 0]%float [100; 32; 32; 0]).
  - vm_compute. reflexivity.
  - vm_compute. reflexivity.
Defined.
